(** * push_notifications.api.rest_framework

    A shallow embedding of [push_notifications/api/rest_framework.py]: the
    hex integer field, the two device serializers, the ownership permission
    and the device view sets, together with the statements that relate this
    code to its specification.

    Python objects are embedded as follows.
    - A value that travels through a request body or a model attribute is a
      [val]; a Python [str] is a [string], a Python [int] is a [Z]
      (Python integers are unbounded).
    - A call either returns or raises: [outcome].
    - A [dict] (request data, [validated_data], keyword arguments, the
      attributes of a model instance) is a [gmap string val].
    - A database table is a finite map from primary keys to rows. *)

From Stdlib Require Import ZArith String Ascii List Bool Lia.
From stdpp Require Import base option list gmap strings fin_maps.

Local Open Scope string_scope.
Local Open Scope Z_scope.

(** ** Values, exceptions, outcomes *)

(** [request.user] is either a stored user or Django's [AnonymousUser]. *)
Inductive requester :=
| User (pk : nat)
| AnonymousUser.

(** The Python values the module handles. *)
Inductive val :=
| VNone
| VBool (b : bool)
| VInt (n : Z)
| VStr (s : string)
| VUser (u : requester).

#[export] Instance requester_eq_dec : EqDecision requester.
Proof. solve_decision. Defined.

#[export] Instance val_eq_dec : EqDecision val.
Proof. solve_decision. Defined.

(** The [detail] of a [ValidationError]: the framework turns the argument
    of [ValidationError("...")] into a list of messages; the error of a
    serializer as a whole maps field names to the details of their
    errors. *)
#[warnings="-register-all"] Inductive error_detail :=
| Messages (msgs : list string)
| ByField (errors : list (string * error_detail)).

(** The exceptions that can leave the code of this module. *)
Inductive exn :=
| ValidationError (detail : error_detail)
| TypeError
| ValueError
| Http404
| MultipleObjectsReturned
| PermissionDenied.

Inductive outcome (A : Type) :=
| Return (a : A)
| Raise (e : exn).
Arguments Return {A} a.
Arguments Raise {A} e.

Definition bind {A B} (m : outcome A) (k : A → outcome B) : outcome B :=
  match m with
  | Return a => k a
  | Raise e => Raise e
  end.

(** ** The Python built-ins the module calls *)

Module Py.

(** [==] on the values above.  [bool] is a subclass of [int], a model
    instance equals another one with the same primary key, and all
    [AnonymousUser] objects are equal to one another. *)
Definition eq (a b : val) : bool :=
  match a, b with
  | VNone, VNone => true
  | VBool x, VBool y => Bool.eqb x y
  | VBool x, VInt n | VInt n, VBool x => Z.eqb n (Z.b2z x)
  | VInt n, VInt m => Z.eqb n m
  | VStr s, VStr t => String.eqb s t
  | VUser (User p), VUser (User q) => Nat.eqb p q
  | VUser AnonymousUser, VUser AnonymousUser => true
  | _, _ => false
  end.

(** [Py_ISSPACE]: space, and the control characters 9 to 13. *)
Definition isspace (c : ascii) : bool :=
  let n := nat_of_ascii c in
  (Nat.eqb n 32 || (Nat.leb 9 n && Nat.leb n 13))%bool.

(** The value of a digit in base 16, [None] for any other character. *)
Definition digit16 (c : ascii) : option Z :=
  let n := Z.of_nat (nat_of_ascii c) in
  if (48 <=? n) && (n <=? 57) then Some (n - 48)
  else if (97 <=? n) && (n <=? 102) then Some (n - 87)
  else if (65 <=? n) && (n <=? 70) then Some (n - 55)
  else None.

Definition is_underscore (c : ascii) : bool := Ascii.eqb c "_"%char.

(** The digit loop of [int(text, 16)]: digits, with single underscores
    between them.  [prev] tells whether the previous character was an
    underscore, [seen] whether a digit has been read.  The result is the
    number read and the rest of the text; [None] on a doubled or a
    trailing underscore. *)
Fixpoint scan16 (prev seen : bool) (acc : Z) (l : list ascii)
  : option (Z * bool * list ascii) :=
  match l with
  | [] => if prev then None else Some (acc, seen, [])
  | c :: l' =>
      if is_underscore c then
        if prev then None else scan16 true seen acc l'
      else
        match digit16 c with
        | Some d => scan16 false true (16 * acc + d) l'
        | None => if prev then None else Some (acc, seen, l)
        end
  end.

Fixpoint lstrip (l : list ascii) : list ascii :=
  match l with
  | c :: l' => if isspace c then lstrip l' else l
  | [] => []
  end.

(** [int(text, 16)] on ASCII text, [None] when it raises [ValueError]:
    white space around the number, an optional sign, an optional [0x] or
    [0X] prefix (which one underscore may follow), then the digits.
    Beyond ASCII the interpreter also takes the decimal digits and the
    white space of its Unicode tables; what it makes of any text is the
    [text_int16] the definitions below are given. *)
Definition int16_of_string (s : string) : option Z :=
  let l0 := lstrip (list_ascii_of_string s) in
  let '(negative, l1) :=
    match l0 with
    | "+"%char :: r => (false, r)
    | "-"%char :: r => (true, r)
    | _ => (false, l0)
    end in
  let l2 :=
    match l1 with
    | "0"%char :: x :: r =>
        if (Ascii.eqb x "x"%char || Ascii.eqb x "X"%char)%bool then
          match r with
          | u :: r' => if is_underscore u then r' else r
          | [] => r
          end
        else l1
    | _ => l1
    end in
  match l2 with
  | u :: _ => if is_underscore u then None else
      match scan16 false false 0 l2 with
      | Some (n, true, rest) =>
          match lstrip rest with
          | [] => Some (if negative then - n else n)
          | _ :: _ => None
          end
      | _ => None
      end
  | [] => None
  end.

(** [int(data, 16)], given what the interpreter reads in a text
    ([text_int16]: its number in base 16, if it is one).  A string that
    is not a number in base 16 raises [ValueError]; only text can be
    converted with an explicit base, and any other argument raises
    [TypeError]. *)
Definition int16_with (text_int16 : string → option Z) (data : val)
  : outcome Z :=
  match data with
  | VStr s =>
      match text_int16 s with
      | Some n => Return n
      | None => Raise ValueError
      end
  | _ => Raise TypeError
  end.

(** [int(data, 16)] with the ASCII reading of text. *)
Definition int16 (data : val) : outcome Z := int16_with int16_of_string data.

(** [len(value)]: the number of characters of a string; the other
    values of this module have no length. *)
Definition len (v : val) : outcome Z :=
  match v with
  | VStr s => Return (Z.of_nat (String.length s))
  | _ => Raise TypeError
  end.

(** [value > bound] for an integer [bound]; ordering anything but a
    number against an integer raises [TypeError]. *)
Definition gt (v : val) (bound : Z) : outcome bool :=
  match v with
  | VInt n => Return (n >? bound)
  | VBool b => Return (Z.b2z b >? bound)
  | _ => Raise TypeError
  end.

End Py.

(** ** Requests, model instances, tables *)

Record Request := {
  user : requester;
  data : gmap string val;
}.

(** [request.user.is_authenticated()] *)
Definition is_authenticated (u : requester) : bool :=
  match u with
  | User _ => true
  | AnonymousUser => false
  end.

(** A model instance: its primary key and its attributes.  An attribute
    that was never assigned is absent from the map; for the nullable
    foreign key [user] that is the database NULL, read back as [None]. *)
Record Device := {
  pk : nat;
  attrs : gmap string val;
}.

Definition getattr (obj : Device) (name : string) : val :=
  default VNone (attrs obj !! name).

(** A table, and a query set over it: rows by primary key. *)
Abbreviation QuerySet := (gmap nat (gmap string val)).

Inductive Model := APNSDevice | GCMDevice.

(** ** What the framework provides *)

(** A serializer field: its flags, its [to_internal_value] and its
    validators (which may query a table). *)
Record Field := {
  required : bool;
  allow_null : bool;
  default_value : option val;
  to_internal_value : val → outcome val;
  validators : list (QuerySet → val → outcome unit);
}.

(** A permission class.  The [view] argument of both methods is not used
    by any class of this module and is left out. *)
Record Permission := {
  has_permission : Request → bool;
  has_object_permission : Request → Device → bool;
}.

(** The parts of the installation this module is used in: the permission
    classes of the project settings, the field [ModelSerializer] derives
    from a model field of [push_notifications.models], and what the
    interpreter's [int(text, 16)] reads in a text (its number, or [None]
    where it raises [ValueError]). *)
Record Framework := {
  DEFAULT_PERMISSION_CLASSES : list Permission;
  model_field : Model → string → Field;
  text_int16 : string → option Z;
}.

(** [BaseDatabaseOperations.integer_field_ranges["BigIntegerField"][1]],
    the largest value of a 64-bit signed column (the comment in
    [validate_device_id] gives the number). *)
Definition BIGINT_MAX_VALUE : Z := 9223372036854775807.

Module fields.
(** A hexadecimal character: 0-9, a-f, A-F. *)
Definition is_hex (c : ascii) : bool :=
  let n := nat_of_ascii c in
  ((Nat.leb 48 n && Nat.leb n 57) || (Nat.leb 97 n && Nat.leb n 102)
   || (Nat.leb 65 n && Nat.leb n 70))%bool.

(** Modelled from the spec: [hex_re] of [push_notifications.fields],
    which this module imports and which is not part of it.  The pattern
    is the one "of hexadecimal characters only": [hex_re.match(value)]
    finds a match exactly when every character of [value] is
    hexadecimal. *)
Definition hex_re_matches (s : string) : bool :=
  forallb is_hex (list_ascii_of_string s).

(** [hex_re.match(value) is None]; matching anything but text raises
    [TypeError]. *)
Definition hex_re_match_is_None (v : val) : outcome bool :=
  match v with
  | VStr s => Return (negb (hex_re_matches s))
  | _ => Raise TypeError
  end.
End fields.

Module IntegerField.
(** [IntegerField.to_internal_value] on an integer: the framework prints
    it in decimal and reads it back, which returns the same integer. *)
Definition to_internal_value (data : Z) : outcome val := Return (VInt data).
End IntegerField.

Module BasePermission.
Definition has_permission (request : Request) : bool := true.
Definition has_object_permission (request : Request) (obj : Device) : bool := true.
End BasePermission.

Module IsAuthenticated.
Definition has_permission (request : Request) : bool :=
  is_authenticated (user request).
Definition class : Permission :=
  Build_Permission has_permission BasePermission.has_object_permission.
End IsAuthenticated.

Module AllowAny.
Definition class : Permission :=
  Build_Permission BasePermission.has_permission
                   BasePermission.has_object_permission.
End AllowAny.

(** [UniqueValidator(queryset)] on the field [field_name] of a serializer
    without an instance: the value must not be the one of a row. *)
Definition UniqueValidator (field_name : string) (queryset : QuerySet)
    (v : val) : outcome unit :=
  if bool_decide (map_Exists (λ _ row, row !! field_name = Some v) queryset)
  then Raise (ValidationError (Messages ["This field must be unique."]))
  else Return tt.

(** ** Fields *)

Module HexIntegerField.

(** [to_internal_value], given what the interpreter reads in a text. *)
Definition to_internal_value_with (text_int16 : string → option Z)
    (data : val) : outcome val :=
  match Py.int16_with text_int16 data with
  | Raise ValueError =>
      Raise (ValidationError
               (Messages ["ValidationError Device ID is not a valid hex number"]))
  | Raise e => Raise e
  | Return data => IntegerField.to_internal_value data
  end.

(** [to_internal_value] with the ASCII reading of text. *)
Definition to_internal_value (data : val) : outcome val :=
  to_internal_value_with Py.int16_of_string data.

Definition to_representation {A : Type} (value : A) : A := value.

End HexIntegerField.

(** ** Serializers *)

Module DeviceSerializerMixin.
Module Meta.
Definition fields : list string :=
  ["name"; "registration_id"; "device_id"; "active"; "date_created"].
Definition read_only_fields : list string := ["date_created"].

(** [extra_kwargs = {"active": {"default": True}}]; a field with a
    default is not required. *)
Definition extra_kwargs (name : string) (f : Field) : Field :=
  if String.eqb name "active" then
    {| required := false;
       allow_null := allow_null f;
       default_value := Some (VBool true);
       to_internal_value := to_internal_value f;
       validators := validators f |}
  else f.
End Meta.
End DeviceSerializerMixin.

Module models.
(** Modelled from the spec: the [registration_id] column of the models
    of [push_notifications.models].  It is the identifying field of
    every record: required, not null, without a default.  Conversion
    and validators are those the framework derives from the column. *)
Definition registration_id (fw : Framework) (m : Model) : Field :=
  let f := model_field fw m "registration_id" in
  {| required := true;
     allow_null := false;
     default_value := None;
     to_internal_value := to_internal_value f;
     validators := validators f |}.

Definition field (fw : Framework) (m : Model) (name : string) : Field :=
  if String.eqb name "registration_id" then registration_id fw m
  else model_field fw m name.
End models.

Module APNSDeviceSerializer.

Module Meta.
Definition model := APNSDevice.
Definition fields := DeviceSerializerMixin.Meta.fields.
Definition read_only_fields := DeviceSerializerMixin.Meta.read_only_fields.
Definition extra_kwargs := DeviceSerializerMixin.Meta.extra_kwargs.
End Meta.

Definition get_field (fw : Framework) (name : string) : Field :=
  Meta.extra_kwargs name (models.field fw Meta.model name).

Definition validate_registration_id (value : val) : outcome val :=
  bind (fields.hex_re_match_is_None value) (fun no_match =>
  if no_match then
    Raise (ValidationError (Messages ["Registration ID (device token) is invalid"]))
  else
    bind (Py.len value) (fun n =>
    if negb (n =? 64) then
      Raise (ValidationError (Messages ["Registration ID (device token) is invalid"]))
    else Return value)).

Definition validate_method (name : string)
  : option (val → outcome val) :=
  if String.eqb name "registration_id" then Some validate_registration_id
  else None.

End APNSDeviceSerializer.

Module GCMDeviceSerializer.

(** [device_id = HexIntegerField(..., required=False)] *)
Definition device_id (fw : Framework) : Field :=
  {| required := false;
     allow_null := false;
     default_value := None;
     to_internal_value :=
       HexIntegerField.to_internal_value_with (text_int16 fw);
     validators := [] |}.

Module Meta.
Definition model := GCMDevice.
Definition fields := DeviceSerializerMixin.Meta.fields.
Definition read_only_fields := DeviceSerializerMixin.Meta.read_only_fields.

(** The class attribute replaces the inherited one. *)
Definition extra_kwargs (name : string) (f : Field) : Field :=
  if String.eqb name "registration_id" then
    {| required := required f;
       allow_null := allow_null f;
       default_value := default_value f;
       to_internal_value := to_internal_value f;
       validators := [UniqueValidator "registration_id"] |}
  else f.
End Meta.

Definition get_field (fw : Framework) (name : string) : Field :=
  if String.eqb name "device_id" then device_id fw
  else Meta.extra_kwargs name (models.field fw Meta.model name).

Definition validate_device_id (value : val) : outcome val :=
  bind (Py.gt value BIGINT_MAX_VALUE) (fun too_big =>
  if too_big then
    Raise (ValidationError (Messages ["ValidationError Device ID is out of range"]))
  else Return value).

Definition validate_method (name : string)
  : option (val → outcome val) :=
  if String.eqb name "device_id" then Some validate_device_id else None.

End GCMDeviceSerializer.

Record SerializerClass := {
  Meta_fields : list string;
  Meta_read_only_fields : list string;
  get_field : string → Field;
  validate_method : string → option (val → outcome val);
}.

Definition APNSDeviceSerializer_class (fw : Framework) : SerializerClass :=
  {| Meta_fields := APNSDeviceSerializer.Meta.fields;
     Meta_read_only_fields := APNSDeviceSerializer.Meta.read_only_fields;
     get_field := APNSDeviceSerializer.get_field fw;
     validate_method := APNSDeviceSerializer.validate_method |}.

Definition GCMDeviceSerializer_class (fw : Framework) : SerializerClass :=
  {| Meta_fields := GCMDeviceSerializer.Meta.fields;
     Meta_read_only_fields := GCMDeviceSerializer.Meta.read_only_fields;
     get_field := GCMDeviceSerializer.get_field fw;
     validate_method := GCMDeviceSerializer.validate_method |}.

(** ** Validation of a request body (the framework's serializer) *)

Module Serializer.

(** [Field.run_validators]: every validator runs and the messages are
    gathered; an error by field, or any other exception, leaves at
    once. *)
Fixpoint run_validators (vs : list (QuerySet → val → outcome unit))
    (queryset : QuerySet) (v : val) (errors : list string) : outcome unit :=
  match vs with
  | [] =>
      match errors with
      | [] => Return tt
      | _ :: _ => Raise (ValidationError (Messages errors))
      end
  | validator :: vs' =>
      match validator queryset v with
      | Return _ => run_validators vs' queryset v errors
      | Raise (ValidationError (Messages msgs)) =>
          run_validators vs' queryset v (errors ++ msgs)%list
      | Raise e => Raise e
      end
  end.

(** [Field.run_validation] on the entry of the body for the field, if
    any.  The result [None] is the framework's [SkipField]. *)
Definition run_validation (f : Field) (queryset : QuerySet)
    (primitive_value : option val) : outcome (option val) :=
  match primitive_value with
  | None =>
      if required f then Raise (ValidationError (Messages ["This field is required."]))
      else Return (default_value f)
  | Some VNone =>
      if allow_null f then Return (Some VNone)
      else Raise (ValidationError (Messages ["This field may not be null."]))
  | Some d =>
      bind (to_internal_value f d) (fun v =>
      bind (run_validators (validators f) queryset v []) (fun _ =>
      Return (Some v)))
  end.

(** The fields a body can set. *)
Definition writable_fields (sc : SerializerClass) : list string :=
  List.filter (fun name => negb (existsb (String.eqb name) (Meta_read_only_fields sc)))
              (Meta_fields sc).

(** One turn of the loop of [Serializer.to_internal_value]: first the
    body of its [try], then what becomes of the result. *)
Definition field_value (sc : SerializerClass) (queryset : QuerySet)
    (data : gmap string val) (name : string) : outcome (option val) :=
  bind (run_validation (get_field sc name) queryset (data !! name))
    (fun validated_value =>
       match validated_value, validate_method sc name with
       | Some v, Some method => bind (method v) (fun v' => Return (Some v'))
       | _, _ => Return validated_value
       end).

Definition validate_field (sc : SerializerClass) (queryset : QuerySet)
    (data : gmap string val) (name : string)
    (acc : list (string * error_detail) * gmap string val)
  : outcome (list (string * error_detail) * gmap string val) :=
  let '(errors, ret) := acc in
  match field_value sc queryset data name with
  | Return (Some v) => Return (errors, <[name := v]> ret)
  | Return None => Return (errors, ret)
  | Raise (ValidationError detail) =>
      Return ((errors ++ [(name, detail)])%list, ret)
  | Raise e => Raise e
  end.

Fixpoint validate_fields (sc : SerializerClass) (queryset : QuerySet)
    (data : gmap string val) (names : list string)
    (acc : list (string * error_detail) * gmap string val)
  : outcome (list (string * error_detail) * gmap string val) :=
  match names with
  | [] => Return acc
  | name :: names' =>
      bind (validate_field sc queryset data name acc)
           (validate_fields sc queryset data names')
  end.

(** [serializer.is_valid(raise_exception=True)]: the validated data, or
    the errors by field. *)
Definition is_valid (sc : SerializerClass) (queryset : QuerySet)
    (data : gmap string val) : outcome (gmap string val) :=
  bind (validate_fields sc queryset data (writable_fields sc) ([], ∅))
    (fun '(errors, ret) =>
       match errors with
       | [] => Return ret
       | _ :: _ => Raise (ValidationError (ByField errors))
       end).

End Serializer.

(** ** Saving *)

(** A serializer object after validation. *)
Record Serializer := {
  validated_data : gmap string val;
  instance : option Device;
}.

(** The table of the view set's model, and the trace of the calls of
    [serializer.save] with their keyword arguments. *)
Record World := {
  objects : QuerySet;
  save_calls : list (gmap string val);
}.

Module ModelSerializer.

(** [Model.objects.create], the validated data as keyword arguments:
    the new row, with the attributes it is given.  What the model layer
    adds of its own (the defaults and the creation date declared in
    [push_notifications.models]) is not part of the row here; the
    properties are about the attributes the serializer assigns, and
    about the owner, which is a nullable reference without a default. *)
Definition create (validated_data : gmap string val) (table : QuerySet)
  : Device * QuerySet :=
  let obj := {| pk := fresh (dom table); attrs := validated_data |} in
  (obj, <[pk obj := attrs obj]> table).

(** [setattr] for every item, then [instance.save()] *)
Definition update (instance : Device) (validated_data : gmap string val)
    (table : QuerySet) : Device * QuerySet :=
  let obj := {| pk := pk instance;
                attrs := validated_data ∪ attrs instance |} in
  (obj, <[pk obj := attrs obj]> table).

(** [serializer.save]: the keyword arguments go on top of
    the validated data; an instance is created the first time and
    updated afterwards. *)
Definition save (kwargs : gmap string val) (serializer : Serializer)
    (w : World) : Serializer * World :=
  let merged := kwargs ∪ validated_data serializer in
  let '(obj, table) :=
    match instance serializer with
    | Some inst => update inst merged (objects w)
    | None => create merged (objects w)
    end in
  ({| validated_data := validated_data serializer;
      instance := Some obj |},
   {| objects := table; save_calls := (save_calls w ++ [kwargs])%list |}).

End ModelSerializer.

(** ** Permissions *)

Module IsOwner.
Definition has_object_permission (request : Request) (obj : Device) : bool :=
  Py.eq (getattr obj "user") (VUser (user request)).
Definition class : Permission :=
  Build_Permission BasePermission.has_permission has_object_permission.
End IsOwner.

(** ** View sets *)

Module CreateModelMixin.
Definition perform_create (serializer : Serializer) (w : World)
  : Serializer * World :=
  ModelSerializer.save ∅ serializer w.
End CreateModelMixin.

Module DeviceViewSetMixin.
Definition lookup_field : string := "registration_id".

Definition perform_create (request : Request) (serializer : Serializer)
    (w : World) : Serializer * World :=
  let '(serializer, w) :=
    if is_authenticated (user request) then
      ModelSerializer.save {["user" := VUser (user request)]} serializer w
    else (serializer, w) in
  CreateModelMixin.perform_create serializer w.
End DeviceViewSetMixin.

Module GenericAPIView.
Definition get_queryset (queryset : QuerySet) (request : Request)
  : outcome QuerySet := Return queryset.
End GenericAPIView.

Module AuthorizedMixin.
Definition permission_classes : list Permission :=
  [IsAuthenticated.class; IsOwner.class].

(** [self.queryset.filter(user=self.request.user)]: the rows of the
    user; the database layer raises [TypeError] when asked to compare
    the foreign key with an [AnonymousUser]. *)
Definition get_queryset (queryset : QuerySet) (request : Request)
  : outcome QuerySet :=
  match user request with
  | User _ =>
      Return (filter (λ kv, kv.2 !! "user" = Some (VUser (user request)))
                     queryset)
  | AnonymousUser => Raise TypeError
  end.
End AuthorizedMixin.

Record ViewSet := {
  permission_classes : list Permission;
  serializer_class : SerializerClass;
  get_queryset : QuerySet → Request → outcome QuerySet;
}.

Definition APNSDeviceViewSet (fw : Framework) : ViewSet :=
  {| permission_classes := DEFAULT_PERMISSION_CLASSES fw;
     serializer_class := APNSDeviceSerializer_class fw;
     get_queryset := GenericAPIView.get_queryset |}.

Definition APNSDeviceAuthorizedViewSet (fw : Framework) : ViewSet :=
  {| permission_classes := AuthorizedMixin.permission_classes;
     serializer_class := serializer_class (APNSDeviceViewSet fw);
     get_queryset := AuthorizedMixin.get_queryset |}.

Definition GCMDeviceViewSet (fw : Framework) : ViewSet :=
  {| permission_classes := DEFAULT_PERMISSION_CLASSES fw;
     serializer_class := GCMDeviceSerializer_class fw;
     get_queryset := GenericAPIView.get_queryset |}.

Definition GCMDeviceAuthorizedViewSet (fw : Framework) : ViewSet :=
  {| permission_classes := AuthorizedMixin.permission_classes;
     serializer_class := serializer_class (GCMDeviceViewSet fw);
     get_queryset := AuthorizedMixin.get_queryset |}.

(** The actions of [ModelViewSet] that the properties are about.  Every action
    starts with [check_permissions]. *)
Module ModelViewSet.

Definition check_permissions (vs : ViewSet) (request : Request)
  : outcome unit :=
  if forallb (fun p => has_permission p request) (permission_classes vs)
  then Return tt else Raise PermissionDenied.

Definition check_object_permissions (vs : ViewSet) (request : Request)
    (obj : Device) : outcome unit :=
  if forallb (fun p => has_object_permission p request obj)
             (permission_classes vs)
  then Return tt else Raise PermissionDenied.

(** [create]: validate the body, then [perform_create]; the response
    shows [serializer.instance]. *)
Definition create (vs : ViewSet) (request : Request) (w : World)
  : outcome (option Device) * World :=
  match check_permissions vs request with
  | Raise e => (Raise e, w)
  | Return _ =>
      match Serializer.is_valid (serializer_class vs) (objects w)
                                (data request) with
      | Raise e => (Raise e, w)
      | Return validated =>
          let '(serializer, w') :=
            DeviceViewSetMixin.perform_create request
              {| validated_data := validated; instance := None |} w in
          (Return (instance serializer), w')
      end
  end.

(** [list]: the rows of the query set. *)
Definition list_ (vs : ViewSet) (request : Request) (w : World)
  : outcome QuerySet :=
  bind (check_permissions vs request) (fun _ =>
  get_queryset vs (objects w) request).

(** [get_object]: the row of the query set whose [lookup_field] is the
    one of the URL, which must pass the object permissions. *)
Definition get_object (vs : ViewSet) (request : Request) (lookup : string)
    (w : World) : outcome Device :=
  bind (get_queryset vs (objects w) request) (fun queryset =>
  match map_to_list
          (filter (λ kv, kv.2 !! DeviceViewSetMixin.lookup_field
                         = Some (VStr lookup)) queryset) with
  | [] => Raise Http404
  | [(k, row)] =>
      let obj := {| pk := k; attrs := row |} in
      bind (check_object_permissions vs request obj) (fun _ => Return obj)
  | _ :: _ :: _ => Raise MultipleObjectsReturned
  end).

(** [retrieve], and the first step of [update] and [destroy]. *)
Definition retrieve (vs : ViewSet) (request : Request) (lookup : string)
    (w : World) : outcome Device :=
  bind (check_permissions vs request) (fun _ =>
  get_object vs request lookup w).

End ModelViewSet.

(** ** The vocabulary of the statements *)

(** GCM [device_id] validation: the field's [to_internal_value], then the
    serializer's [validate_device_id]. *)
Definition validate_gcm_device_id_with (text_int16 : string → option Z)
    (data : val) : outcome val :=
  bind (HexIntegerField.to_internal_value_with text_int16 data)
       GCMDeviceSerializer.validate_device_id.

Definition validate_gcm_device_id (data : val) : outcome val :=
  bind (HexIntegerField.to_internal_value data)
       GCMDeviceSerializer.validate_device_id.

(** The hexadecimal characters, and a string made of 64 of them. *)
Definition hex_characters : list ascii :=
  list_ascii_of_string "0123456789abcdefABCDEF".

Definition is_hex_token (s : string) : Prop :=
  String.length s = 64%nat ∧
  ∀ c, In c (list_ascii_of_string s) → In c hex_characters.

(** The messages of the errors. *)
Definition hex_error : string :=
  "ValidationError Device ID is not a valid hex number".
Definition range_error : string :=
  "ValidationError Device ID is out of range".
Definition unique_error : string := "This field must be unique.".

(** The view sets of the module, those of the GCM model, and those with
    [AuthorizedMixin]. *)
Definition device_viewsets (fw : Framework) : list ViewSet :=
  [APNSDeviceViewSet fw; APNSDeviceAuthorizedViewSet fw;
   GCMDeviceViewSet fw; GCMDeviceAuthorizedViewSet fw].

Definition gcm_viewsets (fw : Framework) : list ViewSet :=
  [GCMDeviceViewSet fw; GCMDeviceAuthorizedViewSet fw].

Definition authorized_viewsets (fw : Framework) : list ViewSet :=
  [APNSDeviceAuthorizedViewSet fw; GCMDeviceAuthorizedViewSet fw].

(** The attributes of the record after [perform_create]: created by the
    first [save], and for an authenticated user updated by the second. *)
Definition created_attrs (u : requester) (validated : gmap string val)
  : gmap string val :=
  match u with
  | User p =>
      (∅ ∪ validated) ∪ ({["user" := VUser (User p)]} ∪ validated)
  | AnonymousUser => ∅ ∪ validated
  end.

(** No two rows of the table share a registration id. *)
Definition unique_registration_ids (table : QuerySet) : Prop :=
  ∀ i j ri rj,
    table !! i = Some ri → table !! j = Some rj →
    is_Some (ri !! "registration_id") →
    ri !! "registration_id" = rj !! "registration_id" →
    i = j.

(** ** Concrete inputs *)

(** An installation to evaluate the view sets in: the framework's default
    permission class, model fields that take any value as it is, and
    the ASCII reading of text. *)
Definition plain_field : Field :=
  {| required := false;
     allow_null := true;
     default_value := None;
     to_internal_value := Return;
     validators := [] |}.

Definition plain_framework : Framework :=
  {| DEFAULT_PERMISSION_CLASSES := [AllowAny.class];
     model_field := fun _ _ => plain_field;
     text_int16 := Py.int16_of_string |}.

Definition empty_world : World := {| objects := ∅; save_calls := [] |}.

Definition sample_token : string :=
  "0123456789abcdef0123456789ABCDEF0123456789abcdef0123456789ABCDEF".

(** User 7 registers the token "abc", and names user 99 as the owner. *)
Definition sample_request : Request :=
  {| user := User 7;
     data := <["registration_id" := VStr "abc"]>
             (<["user" := VUser (User 99)]> ∅) |}.

Definition anonymous_request : Request :=
  {| user := AnonymousUser; data := ∅ |}.

(** The view sets of the APNS model. *)
Definition apns_viewsets (fw : Framework) : list ViewSet :=
  [APNSDeviceViewSet fw; APNSDeviceAuthorizedViewSet fw].

(** An unauthenticated registration of an APNS token. *)
Definition apns_request : Request :=
  {| user := AnonymousUser;
     data := {["registration_id" := VStr sample_token]} |}.

(** [sample_request] with a creation date supplied by the client. *)
Definition dated_request : Request :=
  {| user := User 7;
     data := <["date_created" := VStr "1970-01-01"]> (data sample_request) |}.

(** A registration with the device id "0x1A". *)
Definition hex_device_request : Request :=
  {| user := User 7;
     data := <["device_id" := VStr "0x1A"]> (data sample_request) |}.

(** A registration whose [device_id] is a JSON number, not a string. *)
Definition numeric_device_request : Request :=
  {| user := User 7;
     data := <["device_id" := VInt 26]> (data sample_request) |}.

(** An unauthenticated request with the body of [sample_request]. *)
Definition anonymous_duplicate_request : Request :=
  {| user := AnonymousUser; data := data sample_request |}.

(** The table after [sample_request] has been served once. *)
Definition sample_world : World :=
  (ModelViewSet.create (GCMDeviceViewSet plain_framework)
     sample_request empty_world).2.

(** * Properties *)

(** ** Reading a number in base 16 *)

Example int16_0x1A : Py.int16_of_string "0x1A" = Some 26.
Proof. reflexivity. Qed.

Example int16_zz : Py.int16_of_string "zz" = None.
Proof. reflexivity. Qed.

Example int16_neg : Py.int16_of_string " -ff " = Some (-255).
Proof. reflexivity. Qed.

Example int16_us : Py.int16_of_string "0x_1_f" = Some 31.
Proof. reflexivity. Qed.

Example int16_us2 : Py.int16_of_string "1__f" = None.
Proof. reflexivity. Qed.

Example int16_us3 : Py.int16_of_string "1f_" = None.
Proof. reflexivity. Qed.

Example int16_0x : Py.int16_of_string "0x" = None.
Proof. reflexivity. Qed.

Example int16_empty : Py.int16_of_string "" = None.
Proof. reflexivity. Qed.

Example int16_sp : Py.int16_of_string "1 2" = None.
Proof. reflexivity. Qed.

(** ** The APNS token validator *)

Lemma is_hex_existsb (c : ascii) :
  fields.is_hex c = existsb (Ascii.eqb c) hex_characters.
Proof. destruct c as [[] [] [] [] [] [] [] []]; reflexivity. Qed.

Lemma is_hex_spec (c : ascii) :
  fields.is_hex c = true ↔ In c hex_characters.
Proof.
  rewrite is_hex_existsb, existsb_exists. split.
  - intros (x & Hin & Heq). apply Ascii.eqb_eq in Heq. now subst.
  - intros Hin. exists c. split; [assumption | apply Ascii.eqb_refl].
Qed.

Lemma hex_re_matches_spec (s : string) :
  fields.hex_re_matches s = true ↔
  ∀ c, In c (list_ascii_of_string s) → In c hex_characters.
Proof.
  unfold fields.hex_re_matches. rewrite forallb_forall.
  split; intros H c Hc; apply is_hex_spec; auto.
Qed.

Lemma validate_registration_id_eval (s : string) :
  APNSDeviceSerializer.validate_registration_id (VStr s) =
  if (fields.hex_re_matches s && Nat.eqb (String.length s) 64)%bool
  then Return (VStr s)
  else Raise (ValidationError (Messages ["Registration ID (device token) is invalid"])).
Proof.
  unfold APNSDeviceSerializer.validate_registration_id. simpl.
  destruct (fields.hex_re_matches s); simpl; [| reflexivity].
  destruct (Nat.eqb_spec (String.length s) 64) as [-> | Hne].
  - reflexivity.
  - destruct (Z.eqb_spec (Z.of_nat (String.length s)) 64) as [Heq | _];
      [lia | reflexivity].
Qed.

Lemma is_hex_token_decide (s : string) :
  is_hex_token s ↔
  (fields.hex_re_matches s && Nat.eqb (String.length s) 64)%bool = true.
Proof.
  unfold is_hex_token.
  rewrite andb_true_iff, Nat.eqb_eq, hex_re_matches_spec. tauto.
Qed.

(** C2. [APNSDeviceSerializer.validate_registration_id] returns its
    argument, unchanged, exactly for the strings made of 64 hexadecimal
    characters; for every other string (another length, or a character
    that is not hexadecimal) it raises a validation error. *)
Theorem validate_registration_id_hex_tokens (s : string) :
  (APNSDeviceSerializer.validate_registration_id (VStr s) = Return (VStr s)
   ↔ is_hex_token s) ∧
  (∀ v, APNSDeviceSerializer.validate_registration_id (VStr s) = Return v →
        v = VStr s) ∧
  (¬ is_hex_token s →
   APNSDeviceSerializer.validate_registration_id (VStr s) =
   Raise (ValidationError (Messages ["Registration ID (device token) is invalid"]))).
Proof.
  rewrite validate_registration_id_eval, is_hex_token_decide.
  destruct (fields.hex_re_matches s && Nat.eqb (String.length s) 64)%bool.
  - split; [| split].
    + split; reflexivity.
    + intros v [= <-]. reflexivity.
    + intros H. now destruct H.
  - split; [| split].
    + split; discriminate.
    + discriminate.
    + reflexivity.
Qed.

Lemma validate_registration_id_hex_tokens_witness :
  APNSDeviceSerializer.validate_registration_id (VStr sample_token)
  = Return (VStr sample_token) ∧
  APNSDeviceSerializer.validate_registration_id (VStr "0x1A")
  = Raise (ValidationError (Messages ["Registration ID (device token) is invalid"])).
Proof.
  split.
  - apply (proj1 (validate_registration_id_hex_tokens sample_token)).
    apply is_hex_token_decide. reflexivity.
  - apply (proj2 (proj2 (validate_registration_id_hex_tokens "0x1A"))).
    intros [Hlen _]. discriminate Hlen.
Defined.

(** ** The hex integer field and the GCM device id *)

Lemma to_internal_value_with_string (text_int16 : string → option Z)
    (s : string) :
  HexIntegerField.to_internal_value_with text_int16 (VStr s) =
  match text_int16 s with
  | Some n => Return (VInt n)
  | None => Raise (ValidationError (Messages [hex_error]))
  end.
Proof.
  unfold HexIntegerField.to_internal_value_with. simpl.
  destruct (text_int16 s); reflexivity.
Qed.

Lemma to_internal_value_string (s : string) :
  HexIntegerField.to_internal_value (VStr s) =
  match Py.int16_of_string s with
  | Some n => Return (VInt n)
  | None => Raise (ValidationError (Messages [hex_error]))
  end.
Proof. apply to_internal_value_with_string. Qed.

Lemma validate_device_id_int (n : Z) :
  GCMDeviceSerializer.validate_device_id (VInt n) =
  if n >? BIGINT_MAX_VALUE then Raise (ValidationError (Messages [range_error]))
  else Return (VInt n).
Proof. reflexivity. Qed.

(** C3. GCM [device_id] validation, for every input string and whatever
    the interpreter's [int(text, 16)] reads in it.  The validation returns
    the integer the string denotes in base 16 exactly when the string
    denotes one and the integer is at most 9223372036854775807.  A string
    that [int] does not read as a number in base 16 raises the validation
    error whose message is "ValidationError Device ID is not a valid hex
    number"; a number above the bound raises the validation error
    "ValidationError Device ID is out of range". *)
Theorem validate_gcm_device_id_text (text_int16 : string → option Z)
    (s : string) :
  (∀ n, validate_gcm_device_id_with text_int16 (VStr s) = Return (VInt n)
        ↔ text_int16 s = Some n ∧ n <= 9223372036854775807) ∧
  (text_int16 s = None →
   validate_gcm_device_id_with text_int16 (VStr s)
   = Raise (ValidationError (Messages [hex_error])) ∧
   String.index 0 "not a valid hex number" hex_error = Some 29%nat) ∧
  (∀ n, text_int16 s = Some n → 9223372036854775807 < n →
        validate_gcm_device_id_with text_int16 (VStr s) =
        Raise (ValidationError (Messages [range_error]))).
Proof.
  unfold validate_gcm_device_id_with. rewrite to_internal_value_with_string.
  destruct (text_int16 s) as [m |]; simpl.
  - rewrite validate_device_id_int. unfold BIGINT_MAX_VALUE.
    destruct (Z.gtb_spec m 9223372036854775807) as [Hgt | Hle].
    + split; [| split].
      * intros n. split; [discriminate |]. intros [[= <-] Hle]. lia.
      * discriminate.
      * reflexivity.
    + split; [| split].
      * intros n. split.
        -- intros [= <-]. split; [reflexivity | lia].
        -- intros [[= <-] _]. reflexivity.
      * discriminate.
      * intros n [= <-] Hlt. lia.
  - split; [| split].
    + intros n. split; [discriminate | intros [[=] _]].
    + intros _. split; reflexivity.
    + discriminate.
Qed.

Lemma validate_gcm_device_id_text_witness :
  validate_gcm_device_id (VStr "0x1A") = Return (VInt 26) ∧
  validate_gcm_device_id (VStr "zz")
  = Raise (ValidationError (Messages [hex_error])) ∧
  validate_gcm_device_id (VStr "0x8000000000000000")
  = Raise (ValidationError (Messages [range_error])).
Proof.
  split; [| split].
  - apply (proj1 (validate_gcm_device_id_text Py.int16_of_string "0x1A")).
    split; [reflexivity | lia].
  - apply (proj1 (proj2 (validate_gcm_device_id_text Py.int16_of_string "zz"))).
    reflexivity.
  - apply (proj2 (proj2 (validate_gcm_device_id_text Py.int16_of_string
                           "0x8000000000000000"))
             9223372036854775808); [reflexivity | lia].
Defined.

(** C7. [HexIntegerField.to_representation] returns the stored value as
    it is; so reading back what [to_internal_value] made of a string that
    denotes a number in base 16 gives that number, not a hex string. *)
Theorem to_representation_identity :
  (∀ (A : Type) (v : A), HexIntegerField.to_representation v = v) ∧
  (∀ s n, Py.int16_of_string s = Some n →
     bind (HexIntegerField.to_internal_value (VStr s))
          (fun v => Return (HexIntegerField.to_representation v))
     = Return (VInt n)).
Proof.
  split.
  - reflexivity.
  - intros s n Hs. rewrite to_internal_value_string, Hs. reflexivity.
Qed.

Lemma to_representation_identity_witness :
  bind (HexIntegerField.to_internal_value (VStr "0x1A"))
       (fun v => Return (HexIntegerField.to_representation v))
  = Return (VInt 26).
Proof.
  apply (proj2 to_representation_identity "0x1A" 26). reflexivity.
Defined.

(** C8. [GCMDeviceSerializer.validate_device_id] checks the upper bound
    only: an integer is returned unchanged exactly when it is at most
    9223372036854775807, however negative it is.  The string
    "-0x10000000000000000" denotes -18446744073709551616, which is below
    -9223372036854775808 and passes. *)
Theorem validate_device_id_upper_bound_only :
  (∀ n, n <= 9223372036854775807 →
        GCMDeviceSerializer.validate_device_id (VInt n) = Return (VInt n)) ∧
  (∀ n, GCMDeviceSerializer.validate_device_id (VInt n) = Return (VInt n) →
        n <= 9223372036854775807) ∧
  HexIntegerField.to_internal_value (VStr "-0x10000000000000000")
  = Return (VInt (-18446744073709551616)) ∧
  -18446744073709551616 < -9223372036854775808 ∧
  validate_gcm_device_id (VStr "-0x10000000000000000")
  = Return (VInt (-18446744073709551616)).
Proof.
  split; [| split; [| split; [| split]]].
  - intros n Hn. rewrite validate_device_id_int. unfold BIGINT_MAX_VALUE.
    destruct (Z.gtb_spec n 9223372036854775807); [lia | reflexivity].
  - intros n. rewrite validate_device_id_int. unfold BIGINT_MAX_VALUE.
    destruct (Z.gtb_spec n 9223372036854775807); [discriminate | lia].
  - reflexivity.
  - lia.
  - reflexivity.
Qed.

Lemma validate_device_id_upper_bound_only_witness :
  GCMDeviceSerializer.validate_device_id (VInt (-18446744073709551616))
  = Return (VInt (-18446744073709551616)).
Proof.
  apply (proj1 validate_device_id_upper_bound_only). lia.
Defined.

(** C10. [HexIntegerField.to_internal_value] handles [ValueError] only.
    On every argument that is not a string, [int(data, 16)] raises
    [TypeError], and the field lets it through: the call ends in
    [TypeError], not in a validation error and not in a value. *)
Theorem to_internal_value_type_error (data : val) :
  ((∀ s, data ≠ VStr s) → Py.int16 data = Raise TypeError) ∧
  (Py.int16 data = Raise TypeError →
   HexIntegerField.to_internal_value data = Raise TypeError ∧
   (∀ detail, HexIntegerField.to_internal_value data
              ≠ Raise (ValidationError detail)) ∧
   (∀ v, HexIntegerField.to_internal_value data ≠ Return v)).
Proof.
  split.
  - intros Hns. destruct data; try reflexivity. now destruct (Hns s).
  - intros Hte. unfold HexIntegerField.to_internal_value,
      HexIntegerField.to_internal_value_with.
    fold (Py.int16 data). rewrite Hte.
    repeat split; discriminate.
Qed.

Lemma to_internal_value_type_error_witness :
  HexIntegerField.to_internal_value (VInt 26) = Raise TypeError ∧
  HexIntegerField.to_internal_value VNone = Raise TypeError.
Proof.
  split.
  - apply (proj2 (to_internal_value_type_error (VInt 26))). reflexivity.
  - apply (proj2 (to_internal_value_type_error VNone)).
    apply (proj1 (to_internal_value_type_error VNone)). discriminate.
Defined.

(** ** The ownership permission *)

Lemma py_eq_user (v : val) (u : requester) :
  Py.eq v (VUser u) = true ↔ v = VUser u.
Proof.
  destruct v as [| b | n | s | [p |]], u as [q |]; simpl;
    try (split; [discriminate | intros [=]]; fail).
  - rewrite Nat.eqb_eq. split; [intros -> | intros [= ->]]; reflexivity.
  - split; reflexivity.
Qed.

(** C4. [IsOwner.has_object_permission] grants the permission exactly
    when the owner of the record ([obj.user]) is the user of the request.
    The class leaves [has_permission], the check made for every action
    including list and create, at the default that always grants: it
    restricts object-level operations only. *)
Theorem is_owner_object_permission (request : Request) (obj : Device) :
  (IsOwner.has_object_permission request obj = true
   ↔ getattr obj "user" = VUser (user request)) ∧
  has_object_permission IsOwner.class request obj
  = IsOwner.has_object_permission request obj ∧
  has_permission IsOwner.class request = true.
Proof.
  split; [| split]; try reflexivity.
  unfold IsOwner.has_object_permission. apply py_eq_user.
Qed.

Lemma is_owner_object_permission_witness :
  IsOwner.has_object_permission sample_request
    {| pk := 0; attrs := {["user" := VUser (User 7)]} |} = true.
Proof.
  apply (proj1 (is_owner_object_permission sample_request
                  {| pk := 0; attrs := {["user" := VUser (User 7)]} |})).
  vm_compute. reflexivity.
Defined.

(** ** Creation *)

Lemma save_unfold (kwargs : gmap string val) (serializer : Serializer)
    (w : World) :
  ModelSerializer.save kwargs serializer w =
  let merged := kwargs ∪ validated_data serializer in
  let obj :=
    match instance serializer with
    | Some inst => {| pk := pk inst; attrs := merged ∪ attrs inst |}
    | None => {| pk := fresh (dom (objects w)); attrs := merged |}
    end in
  ({| validated_data := validated_data serializer; instance := Some obj |},
   {| objects := <[pk obj := attrs obj]> (objects w);
      save_calls := (save_calls w ++ [kwargs])%list |}).
Proof.
  unfold ModelSerializer.save, ModelSerializer.update, ModelSerializer.create.
  destruct (instance serializer); reflexivity.
Qed.

Lemma perform_create_unfold (request : Request) (serializer : Serializer)
    (w : World) :
  DeviceViewSetMixin.perform_create request serializer w =
  match user request with
  | User p =>
      let first :=
        ModelSerializer.save {["user" := VUser (User p)]} serializer w in
      ModelSerializer.save ∅ first.1 first.2
  | AnonymousUser => ModelSerializer.save ∅ serializer w
  end.
Proof.
  unfold DeviceViewSetMixin.perform_create, CreateModelMixin.perform_create.
  destruct (user request) as [p |]; simpl; [| reflexivity].
  destruct (ModelSerializer.save _ serializer w); reflexivity.
Qed.

(** C9. [DeviceViewSetMixin.perform_create] calls [serializer.save] twice
    for an authenticated user, first with [user=request.user] and then,
    through the parent's [perform_create], without arguments; for an
    unauthenticated user it calls it once, without arguments. *)
Theorem perform_create_save_calls (request : Request) (serializer : Serializer)
    (w : World) :
  save_calls (DeviceViewSetMixin.perform_create request serializer w).2 =
  (save_calls w ++
   match user request with
   | User p => [ {["user" := VUser (User p)]} ; ∅ ]
   | AnonymousUser => [ ∅ ]
   end)%list.
Proof.
  rewrite perform_create_unfold.
  destruct (user request) as [p |]; cbv zeta; rewrite !save_unfold; simpl.
  - rewrite <- app_assoc. reflexivity.
  - reflexivity.
Qed.

(** *** What validation reads and what it returns *)

Section validate_fields.
Context (sc : SerializerClass) (queryset : QuerySet).

Lemma field_value_ext (d1 d2 : gmap string val) (name : string) :
  d1 !! name = d2 !! name →
  Serializer.field_value sc queryset d1 name
  = Serializer.field_value sc queryset d2 name.
Proof. unfold Serializer.field_value. intros ->. reflexivity. Qed.

Lemma validate_fields_ext (d1 d2 : gmap string val) (names : list string) :
  (∀ name, In name names → d1 !! name = d2 !! name) →
  ∀ acc, Serializer.validate_fields sc queryset d1 names acc
         = Serializer.validate_fields sc queryset d2 names acc.
Proof.
  induction names as [| name names IH]; intros Hagree acc; simpl.
  - reflexivity.
  - unfold Serializer.validate_field. destruct acc as [errors ret].
    rewrite (field_value_ext d1 d2 name) by (apply Hagree; now left).
    destruct (Serializer.field_value sc queryset d2 name)
      as [[v |] | []]; simpl; try reflexivity;
      apply IH; intros n Hn; apply Hagree; now right.
Qed.

(** The steps of the loop, by the outcome of the field. *)
Lemma validate_fields_step (data : gmap string val) (name : string)
    (names : list string) (errors0 : list (string * error_detail))
    (ret0 : gmap string val) :
  Serializer.validate_fields sc queryset data (name :: names) (errors0, ret0)
  = match Serializer.field_value sc queryset data name with
    | Return (Some v) =>
        Serializer.validate_fields sc queryset data names
          (errors0, <[name := v]> ret0)
    | Return None =>
        Serializer.validate_fields sc queryset data names (errors0, ret0)
    | Raise (ValidationError detail) =>
        Serializer.validate_fields sc queryset data names
          ((errors0 ++ [(name, detail)])%list, ret0)
    | Raise e => Raise e
    end.
Proof.
  simpl. destruct (Serializer.field_value sc queryset data name)
    as [[v |] | []]; reflexivity.
Qed.

Lemma validate_fields_lookup (data : gmap string val) (names : list string) :
  ∀ errors0 ret0 errors ret k v,
    Serializer.validate_fields sc queryset data names (errors0, ret0)
    = Return (errors, ret) →
    ret !! k = Some v →
    ret0 !! k = Some v ∨
    (In k names ∧
     Serializer.field_value sc queryset data k = Return (Some v)).
Proof.
  induction names as [| name names IH];
    intros errors0 ret0 errors ret k v Hrun Hk.
  - injection Hrun as <- <-. now left.
  - rewrite validate_fields_step in Hrun.
    destruct (Serializer.field_value sc queryset data name)
      as [[x |] | []] eqn:Hfield; try discriminate Hrun;
      destruct (IH _ _ _ _ _ _ Hrun Hk) as [Hin | [Hin Hv]];
      try (right; split; [now right | assumption]);
      try (now left).
    destruct (decide (name = k)) as [-> | Hne].
    + rewrite lookup_insert_eq in Hin. injection Hin as ->.
      right. split; [now left | assumption].
    + rewrite lookup_insert_ne in Hin by assumption. now left.
Qed.

Lemma validate_fields_errors (data : gmap string val) (names : list string) :
  ∀ errors0 ret0 errors ret,
    Serializer.validate_fields sc queryset data names (errors0, ret0)
    = Return (errors, ret) →
    (∀ e, In e errors0 → In e errors) ∧
    (∀ name detail, In name names →
       Serializer.field_value sc queryset data name
       = Raise (ValidationError detail) →
       In (name, detail) errors).
Proof.
  induction names as [| name names IH]; intros errors0 ret0 errors ret Hrun.
  - injection Hrun as <- <-. split; [auto | intros ? ? []].
  - rewrite validate_fields_step in Hrun.
    destruct (Serializer.field_value sc queryset data name)
      as [[x |] | []] eqn:Hfield; try discriminate Hrun;
      destruct (IH _ _ _ _ Hrun) as [Hkeep Hnew].
    + split; [assumption |].
      intros n d [<- | Hn] Hraise; [congruence | eauto].
    + split; [assumption |].
      intros n d [<- | Hn] Hraise; [congruence | eauto].
    + split.
      * intros e He. apply Hkeep, in_or_app. now left.
      * intros n d [<- | Hn] Hraise; [| eauto].
        rewrite Hfield in Hraise. injection Hraise as <-.
        apply Hkeep, in_or_app. right. now left.
Qed.

(** The loop hands on every exception but [ValidationError]. *)
Lemma validate_fields_raise (data : gmap string val) (names : list string) :
  ∀ acc detail,
    Serializer.validate_fields sc queryset data names acc
    ≠ Raise (ValidationError detail).
Proof.
  induction names as [| name names IH]; intros [errors0 ret0] detail.
  - discriminate.
  - rewrite validate_fields_step.
    destruct (Serializer.field_value sc queryset data name)
      as [[x |] | []]; try apply IH; discriminate.
Qed.

Lemma is_valid_lookup (data validated : gmap string val) (k : string)
    (v : val) :
  Serializer.is_valid sc queryset data = Return validated →
  validated !! k = Some v →
  In k (Serializer.writable_fields sc) ∧
  Serializer.field_value sc queryset data k = Return (Some v).
Proof.
  unfold Serializer.is_valid. intros Hvalid Hk.
  destruct (Serializer.validate_fields sc queryset data
              (Serializer.writable_fields sc) ([], ∅))
    as [[errors ret] | e] eqn:Hrun; simpl in Hvalid; [| discriminate].
  destruct errors; [| discriminate]. injection Hvalid as ->.
  destruct (validate_fields_lookup _ _ _ _ _ _ _ _ Hrun Hk) as [Hin | H].
  - rewrite lookup_empty in Hin. discriminate.
  - exact H.
Qed.

(** When a field raises a validation error, validation fails; and when
    it fails with a validation error, that is the error by field, with
    the entry of this field in it. *)
Lemma is_valid_error (data : gmap string val) (name : string)
    (detail : error_detail) :
  In name (Serializer.writable_fields sc) →
  Serializer.field_value sc queryset data name
  = Raise (ValidationError detail) →
  ∃ e, Serializer.is_valid sc queryset data = Raise e ∧
       ∀ d, e = ValidationError d →
            ∃ errors, d = ByField errors ∧ In (name, detail) errors.
Proof.
  unfold Serializer.is_valid. intros Hname Hraise.
  destruct (Serializer.validate_fields sc queryset data
              (Serializer.writable_fields sc) ([], ∅))
    as [[errors ret] | e] eqn:Hrun; simpl.
  - destruct (validate_fields_errors _ _ _ _ _ _ Hrun) as [_ Hnew].
    specialize (Hnew _ _ Hname Hraise).
    destruct errors as [| x errors]; [destruct Hnew |].
    eexists. split; [reflexivity |].
    intros d [= <-]. eexists. split; [reflexivity | exact Hnew].
  - exists e. split; [reflexivity |]. intros d ->.
    now apply validate_fields_raise in Hrun.
Qed.

Lemma is_valid_ext (d1 d2 : gmap string val) :
  (∀ name, In name (Meta_fields sc) → d1 !! name = d2 !! name) →
  Serializer.is_valid sc queryset d1 = Serializer.is_valid sc queryset d2.
Proof.
  intros Hagree. unfold Serializer.is_valid.
  rewrite (validate_fields_ext d1 d2); [reflexivity |].
  intros name Hname. apply Hagree.
  unfold Serializer.writable_fields in Hname.
  apply filter_In in Hname. tauto.
Qed.

End validate_fields.

(** *** What [create] stores *)

Lemma perform_create_new (request : Request) (validated : gmap string val)
    (w : World) :
  DeviceViewSetMixin.perform_create request
    {| validated_data := validated; instance := None |} w =
  let obj := {| pk := fresh (dom (objects w));
                attrs := created_attrs (user request) validated |} in
  ({| validated_data := validated; instance := Some obj |},
   {| objects := <[pk obj := attrs obj]> (objects w);
      save_calls :=
        (save_calls w ++
         match user request with
         | User p => [ {["user" := VUser (User p)]} ; ∅ ]
         | AnonymousUser => [ ∅ ]
         end)%list |}).
Proof.
  rewrite perform_create_unfold. unfold created_attrs.
  destruct (user request) as [p |]; cbv zeta; rewrite !save_unfold; simpl.
  - rewrite insert_insert_eq, <- app_assoc. reflexivity.
  - reflexivity.
Qed.

Lemma create_unfold (vs : ViewSet) (request : Request) (w : World) :
  ModelViewSet.create vs request w =
  match ModelViewSet.check_permissions vs request with
  | Raise e => (Raise e, w)
  | Return _ =>
      match Serializer.is_valid (serializer_class vs) (objects w)
                                (data request) with
      | Raise e => (Raise e, w)
      | Return validated =>
          let obj := {| pk := fresh (dom (objects w));
                        attrs := created_attrs (user request) validated |} in
          (Return (Some obj),
           {| objects := <[pk obj := attrs obj]> (objects w);
              save_calls :=
                (save_calls w ++
                 match user request with
                 | User p => [ {["user" := VUser (User p)]} ; ∅ ]
                 | AnonymousUser => [ ∅ ]
                 end)%list |})
      end
  end.
Proof.
  unfold ModelViewSet.create.
  destruct (ModelViewSet.check_permissions vs request); [| reflexivity].
  destruct (Serializer.is_valid _ _ _) as [validated |]; [| reflexivity].
  rewrite perform_create_new. reflexivity.
Qed.

Lemma created_attrs_lookup (u : requester) (validated : gmap string val)
    (k : string) :
  k ≠ "user" → created_attrs u validated !! k = validated !! k.
Proof.
  intros Hk. unfold created_attrs. destruct u as [p |].
  - rewrite (left_id_L ∅ (∪)).
    destruct (validated !! k) as [v |] eqn:Hv.
    + now apply lookup_union_Some_l.
    + rewrite lookup_union_r by assumption.
      rewrite lookup_union_r by (now apply lookup_singleton_ne).
      assumption.
  - now rewrite (left_id_L ∅ (∪)).
Qed.

Lemma created_attrs_user (u : requester) (validated : gmap string val) :
  validated !! "user" = None →
  created_attrs u validated !! "user" =
  match u with
  | User p => Some (VUser (User p))
  | AnonymousUser => None
  end.
Proof.
  intros Hv. unfold created_attrs. destruct u as [p |].
  - rewrite (left_id_L ∅ (∪)). rewrite lookup_union_r by assumption.
    apply lookup_union_Some_l. apply lookup_singleton_eq.
  - now rewrite (left_id_L ∅ (∪)).
Qed.

Lemma device_viewsets_fields (fw : Framework) (vs : ViewSet) :
  In vs (device_viewsets fw) →
  Meta_fields (serializer_class vs) = DeviceSerializerMixin.Meta.fields ∧
  Serializer.writable_fields (serializer_class vs)
  = ["name"; "registration_id"; "device_id"; "active"].
Proof.
  intros [<- | [<- | [<- | [<- | []]]]]; split; reflexivity.
Qed.

(** C1. When a device view set creates a record, the stored record is
    new, its owner is the user of the request if that user is
    authenticated and is unset otherwise, and nothing the body holds
    outside the serializer's fields (such as a [user] or [owner] entry)
    has any effect on the record: a request of the same user whose body
    agrees on the serializer's fields stores the same record. *)
Theorem create_sets_owner (fw : Framework) (vs : ViewSet) (request : Request)
    (w w' : World) (obj : option Device) :
  In vs (device_viewsets fw) →
  ModelViewSet.create vs request w = (Return obj, w') →
  ∃ d, obj = Some d ∧
       objects w !! pk d = None ∧
       objects w' !! pk d = Some (attrs d) ∧
       attrs d !! "user" =
         match user request with
         | User p => Some (VUser (User p))
         | AnonymousUser => None
         end ∧
       ∀ body obj2 w2,
         (∀ name, In name DeviceSerializerMixin.Meta.fields →
                  body !! name = data request !! name) →
         ModelViewSet.create vs {| user := user request; data := body |} w
         = (Return obj2, w2) →
         obj2 = Some d.
Proof.
  intros Hvs Hcreate. rewrite create_unfold in Hcreate.
  destruct (device_viewsets_fields fw vs Hvs) as [Hfields Hwritable].
  destruct (ModelViewSet.check_permissions vs request); [| discriminate].
  destruct (Serializer.is_valid _ _ (data request)) as [validated |] eqn:Hvalid;
    [| discriminate].
  cbv zeta in Hcreate. injection Hcreate as <- <-.
  eexists. split; [reflexivity |]. simpl. split; [| split; [| split]].
  - apply not_elem_of_dom, is_fresh.
  - apply lookup_insert_eq.
  - apply created_attrs_user.
    destruct (validated !! "user") as [x |] eqn:Hx; [| reflexivity].
    destruct (is_valid_lookup _ _ _ _ _ _ Hvalid Hx) as [Hin _].
    rewrite Hwritable in Hin. simpl in Hin.
    repeat (destruct Hin as [Hin | Hin]; [discriminate Hin |]).
    destruct Hin.
  - intros body obj2 w2 Hagree Hcreate2. rewrite create_unfold in Hcreate2.
    simpl in Hcreate2.
    destruct (ModelViewSet.check_permissions vs _); [| discriminate].
    rewrite (is_valid_ext _ _ body (data request)) in Hcreate2
      by (rewrite Hfields; exact Hagree).
    rewrite Hvalid in Hcreate2. cbv zeta in Hcreate2.
    now injection Hcreate2 as <- <-.
Qed.

Lemma create_sets_owner_witness :
  ∃ d, (ModelViewSet.create (GCMDeviceViewSet plain_framework)
          sample_request empty_world).1 = Return (Some d) ∧
       attrs d !! "user" = Some (VUser (User 7)).
Proof.
  destruct (create_sets_owner plain_framework
              (GCMDeviceViewSet plain_framework) sample_request empty_world
              (ModelViewSet.create (GCMDeviceViewSet plain_framework)
                 sample_request empty_world).2
              match (ModelViewSet.create (GCMDeviceViewSet plain_framework)
                       sample_request empty_world).1 with
              | Return o => o
              | Raise _ => None
              end)
    as (d & Hobj & _ & _ & Huser & _).
  - right. right. left. reflexivity.
  - vm_compute. reflexivity.
  - exists d. split; [| exact Huser].
    rewrite <- Hobj. vm_compute. reflexivity.
Defined.

(** ** Uniqueness of GCM registration ids *)

Section validate_fields_complete.
Context (sc : SerializerClass) (queryset : QuerySet)
        (data : gmap string val).

Lemma validate_fields_keeps (names : list string) :
  ∀ errors0 ret0 errors ret k v,
    Serializer.validate_fields sc queryset data names (errors0, ret0)
    = Return (errors, ret) →
    ret0 !! k = Some v →
    Serializer.field_value sc queryset data k = Return (Some v) →
    ret !! k = Some v.
Proof.
  induction names as [| name names IH];
    intros errors0 ret0 errors ret k v Hrun Hk Hfield.
  - now injection Hrun as <- <-.
  - rewrite validate_fields_step in Hrun.
    destruct (Serializer.field_value sc queryset data name)
      as [[x |] | []] eqn:Hname; try discriminate Hrun;
      try (eapply IH; eauto; fail).
    eapply IH; [exact Hrun | | exact Hfield].
    destruct (decide (name = k)) as [-> | Hne].
    + rewrite lookup_insert_eq. congruence.
    + now rewrite lookup_insert_ne.
Qed.

Lemma validate_fields_complete (names : list string) :
  ∀ errors0 ret0 ret name,
    Serializer.validate_fields sc queryset data names (errors0, ret0)
    = Return ([], ret) →
    In name names →
    ∃ o, Serializer.field_value sc queryset data name = Return o ∧
         ∀ v, o = Some v → ret !! name = Some v.
Proof.
  induction names as [| n names IH];
    intros errors0 ret0 ret name Hrun Hname; [destruct Hname |].
  pose proof Hrun as Hstep. rewrite validate_fields_step in Hstep.
  destruct Hname as [-> | Hname].
  - destruct (Serializer.field_value sc queryset data name)
      as [[x |] | []] eqn:Hfield; try discriminate Hstep.
    + exists (Some x). split; [reflexivity |]. intros v [= <-].
      eapply validate_fields_keeps; [exact Hstep | | exact Hfield].
      apply lookup_insert_eq.
    + exists None. split; [reflexivity | discriminate].
    + destruct (validate_fields_errors _ _ _ _ _ _ _ _ Hstep) as [Hkeep _].
      destruct (Hkeep (name, detail)). apply in_or_app. right. now left.
  - destruct (Serializer.field_value sc queryset data n)
      as [[x |] | []]; try discriminate Hstep; eapply IH; eauto.
Qed.

Lemma is_valid_complete (validated : gmap string val) (name : string) :
  Serializer.is_valid sc queryset data = Return validated →
  In name (Serializer.writable_fields sc) →
  ∃ o, Serializer.field_value sc queryset data name = Return o ∧
       ∀ v, o = Some v → validated !! name = Some v.
Proof.
  unfold Serializer.is_valid. intros Hvalid Hname.
  destruct (Serializer.validate_fields sc queryset data
              (Serializer.writable_fields sc) ([], ∅))
    as [[errors ret] | e] eqn:Hrun; simpl in Hvalid; [| discriminate].
  destruct errors; [| discriminate]. injection Hvalid as ->.
  eapply validate_fields_complete; eauto.
Qed.

End validate_fields_complete.

(** The [registration_id] field of the GCM serializer, step by step. *)
Lemma gcm_registration_id_value (fw : Framework) (queryset : QuerySet)
    (data : gmap string val) :
  Serializer.field_value (GCMDeviceSerializer_class fw) queryset data
                         "registration_id" =
  match data !! "registration_id" with
  | None => Raise (ValidationError (Messages ["This field is required."]))
  | Some VNone =>
      Raise (ValidationError (Messages ["This field may not be null."]))
  | Some raw =>
      match to_internal_value (model_field fw GCMDevice "registration_id")
                              raw with
      | Return v =>
          if bool_decide (map_Exists
               (λ _ row, row !! "registration_id" = Some v) queryset)
          then Raise (ValidationError (Messages [unique_error]))
          else Return (Some v)
      | Raise e => Raise e
      end
  end.
Proof.
  unfold Serializer.field_value, Serializer.run_validation.
  destruct (data !! "registration_id") as [[] |]; simpl; try reflexivity;
    (destruct (to_internal_value _ _) as [v |]; simpl; [| reflexivity];
     unfold UniqueValidator; destruct (bool_decide _); reflexivity).
Qed.

Lemma gcm_viewsets_serializer (fw : Framework) (vs : ViewSet) :
  In vs (gcm_viewsets fw) →
  serializer_class vs = GCMDeviceSerializer_class fw.
Proof. intros [<- | [<- | []]]; reflexivity. Qed.

Lemma check_permissions_raise (vs : ViewSet) (request : Request) (e : exn) :
  ModelViewSet.check_permissions vs request = Raise e → e = PermissionDenied.
Proof.
  unfold ModelViewSet.check_permissions.
  destruct (forallb _ _); [discriminate | now intros [= <-]].
Qed.

(** A successful GCM creation stores the registration id of the body, as
    the field converts it, and no row had it before. *)
Lemma gcm_create_stores (fw : Framework) (vs : ViewSet) (request : Request)
    (w w1 : World) (obj : option Device) :
  In vs (gcm_viewsets fw) →
  ModelViewSet.create vs request w = (Return obj, w1) →
  ∃ d raw v,
    obj = Some d ∧
    data request !! "registration_id" = Some raw ∧
    to_internal_value (model_field fw GCMDevice "registration_id") raw
    = Return v ∧
    attrs d !! "registration_id" = Some v ∧
    objects w1 = <[pk d := attrs d]> (objects w) ∧
    objects w !! pk d = None ∧
    ¬ map_Exists (λ _ row, row !! "registration_id" = Some v) (objects w).
Proof.
  intros Hvs Hcreate. rewrite create_unfold in Hcreate.
  rewrite (gcm_viewsets_serializer fw vs Hvs) in Hcreate.
  destruct (ModelViewSet.check_permissions vs request); [| discriminate].
  destruct (Serializer.is_valid _ _ (data request)) as [validated |] eqn:Hvalid;
    [| discriminate].
  cbv zeta in Hcreate. injection Hcreate as <- <-.
  destruct (is_valid_complete _ _ _ _ "registration_id" Hvalid)
    as (o & Hfield & Hstored).
  { right. left. reflexivity. }
  rewrite gcm_registration_id_value in Hfield.
  destruct (data request !! "registration_id") as [raw |]; [| discriminate].
  assert (Hraw : ∃ v,
    to_internal_value (model_field fw GCMDevice "registration_id") raw
    = Return v ∧ o = Some v ∧
    ¬ map_Exists (λ _ row, row !! "registration_id" = Some v) (objects w)).
  { destruct raw; try discriminate Hfield;
      (destruct (to_internal_value _ _) as [v |]; [| discriminate Hfield];
       destruct (bool_decide_reflect
                   (map_Exists (λ _ row, row !! "registration_id" = Some v)
                               (objects w))) as [Hex | Hnex];
       [discriminate Hfield |]; injection Hfield as <-; eauto). }
  destruct Hraw as (v & Hconv & -> & Hnew).
  eexists _, raw, v. split; [reflexivity |]. simpl.
  repeat split; try assumption.
  - rewrite created_attrs_lookup by discriminate. now apply Hstored.
  - apply not_elem_of_dom, is_fresh.
Qed.

(** Creation keeps the registration ids of a GCM table distinct. *)
Lemma gcm_create_unique (fw : Framework) (vs : ViewSet) (request : Request)
    (w : World) :
  In vs (gcm_viewsets fw) →
  unique_registration_ids (objects w) →
  unique_registration_ids (objects (ModelViewSet.create vs request w).2).
Proof.
  intros Hvs Hunique.
  destruct (ModelViewSet.create vs request w) as [[obj | e] w1] eqn:Hcreate;
    simpl.
  - destruct (gcm_create_stores _ _ _ _ _ _ Hvs Hcreate)
      as (d & raw & v & -> & _ & _ & Hrid & -> & Hfresh & Hnew).
    intros i j ri rj Hi Hj Hsome Heq.
    destruct (decide (i = pk d)) as [-> | Hip],
             (decide (j = pk d)) as [-> | Hjp].
    + reflexivity.
    + rewrite lookup_insert_eq in Hi. rewrite lookup_insert_ne in Hj by congruence.
      injection Hi as <-. destruct Hnew. exists j, rj.
      split; [assumption | now rewrite <- Heq].
    + rewrite lookup_insert_eq in Hj. rewrite lookup_insert_ne in Hi by congruence.
      injection Hj as <-. destruct Hnew. exists i, ri.
      split; [assumption | now rewrite Heq].
    + rewrite lookup_insert_ne in Hi by congruence.
      rewrite lookup_insert_ne in Hj by congruence.
      eapply Hunique; eauto.
  - rewrite create_unfold in Hcreate.
    destruct (ModelViewSet.check_permissions vs request);
      [| now injection Hcreate as _ <-].
    destruct (Serializer.is_valid _ _ _);
      [discriminate | now injection Hcreate as _ <-].
Qed.

(** When no field raises anything but a validation error, the loop runs
    to its end. *)
Lemma validate_fields_total (sc : SerializerClass) (queryset : QuerySet)
    (data : gmap string val) (names : list string) :
  (∀ name e, In name names →
     Serializer.field_value sc queryset data name = Raise e →
     ∃ detail, e = ValidationError detail) →
  ∀ acc, ∃ errors ret,
    Serializer.validate_fields sc queryset data names acc
    = Return (errors, ret).
Proof.
  induction names as [| name names IH]; intros Hsafe [errors0 ret0].
  - eexists _, _. reflexivity.
  - rewrite validate_fields_step.
    assert (Hrest : ∀ n e, In n names →
              Serializer.field_value sc queryset data n = Raise e →
              ∃ detail, e = ValidationError detail)
      by (intros n e Hn; apply Hsafe; now right).
    destruct (Serializer.field_value sc queryset data name)
      as [[x |] | e] eqn:Hname; try (now apply IH).
    destruct (Hsafe name e (or_introl eq_refl) Hname) as [detail ->].
    now apply IH.
Qed.

Lemma is_valid_error_reported (sc : SerializerClass) (queryset : QuerySet)
    (data : gmap string val) (name : string) (detail : error_detail) :
  In name (Serializer.writable_fields sc) →
  Serializer.field_value sc queryset data name
  = Raise (ValidationError detail) →
  (∀ n e, In n (Serializer.writable_fields sc) →
     Serializer.field_value sc queryset data n = Raise e →
     ∃ d, e = ValidationError d) →
  ∃ errors, Serializer.is_valid sc queryset data
            = Raise (ValidationError (ByField errors)) ∧
            In (name, detail) errors.
Proof.
  intros Hname Hraise Hsafe. unfold Serializer.is_valid.
  destruct (validate_fields_total sc queryset data _ Hsafe ([], ∅))
    as (errors & ret & Hrun).
  rewrite Hrun. simpl.
  destruct (validate_fields_errors _ _ _ _ _ _ _ _ Hrun) as [_ Hnew].
  specialize (Hnew _ _ Hname Hraise).
  destruct errors as [| x errors]; [destruct Hnew |].
  eexists. split; [reflexivity | exact Hnew].
Qed.

(** C6, as the code has it.  After a GCM device has been created, a
    creation whose body has the same registration id fails and stores
    nothing, and the validation of its [registration_id] field raises the
    uniqueness error.  When the request passes the permission check and
    no field raises anything but a validation error, the creation fails
    with the validation error of the request, which reports the
    uniqueness error for [registration_id]; and whenever it fails with a
    validation error, that error reports it.  Every creation keeps the
    registration ids of the stored GCM records distinct. *)
Theorem gcm_registration_id_unique (fw : Framework) (vs : ViewSet) :
  In vs (gcm_viewsets fw) →
  (∀ request1 request2 w w1 obj,
     ModelViewSet.create vs request1 w = (Return obj, w1) →
     data request2 !! "registration_id" = data request1 !! "registration_id" →
     Serializer.field_value (serializer_class vs) (objects w1)
                            (data request2) "registration_id"
     = Raise (ValidationError (Messages [unique_error])) ∧
     ∃ e, ModelViewSet.create vs request2 w1 = (Raise e, w1) ∧
          (∀ detail, e = ValidationError detail →
             ∃ errors, detail = ByField errors ∧
                       In ("registration_id", Messages [unique_error]) errors) ∧
          (ModelViewSet.check_permissions vs request2 = Return tt →
           (∀ name e', In name (Serializer.writable_fields (serializer_class vs)) →
              Serializer.field_value (serializer_class vs) (objects w1)
                                     (data request2) name = Raise e' →
              ∃ detail, e' = ValidationError detail) →
           ∃ errors, e = ValidationError (ByField errors) ∧
                     In ("registration_id", Messages [unique_error]) errors)) ∧
  (∀ request w,
     unique_registration_ids (objects w) →
     unique_registration_ids (objects (ModelViewSet.create vs request w).2)).
Proof.
  intros Hvs. split; [| intros request w; now apply (gcm_create_unique fw)].
  intros request1 request2 w w1 obj Hcreate Hsame.
  destruct (gcm_create_stores _ _ _ _ _ _ Hvs Hcreate)
    as (d & raw & v & -> & Hraw & Hconv & Hrid & Hw1 & _ & _).
  assert (Hfield :
    Serializer.field_value (serializer_class vs) (objects w1)
                           (data request2) "registration_id"
    = Raise (ValidationError (Messages [unique_error]))).
  { rewrite (gcm_viewsets_serializer fw vs Hvs), gcm_registration_id_value.
    rewrite Hsame, Hraw.
    assert (Hnn : raw ≠ VNone).
    { intros ->. pose proof Hcreate as Hc. rewrite create_unfold in Hc.
      rewrite (gcm_viewsets_serializer fw vs Hvs) in Hc.
      destruct (ModelViewSet.check_permissions vs request1); [| discriminate].
      destruct (Serializer.is_valid _ _ (data request1)) as [validated |]
        eqn:Hvalid; [| discriminate].
      destruct (is_valid_complete _ _ _ _ "registration_id" Hvalid)
        as (o & Hf & _); [right; left; reflexivity |].
      rewrite gcm_registration_id_value, Hraw in Hf. discriminate. }
    rewrite Hconv.
    rewrite bool_decide_eq_true_2.
    - destruct raw; try reflexivity. now destruct Hnn.
    - exists (pk d), (attrs d). rewrite Hw1, lookup_insert_eq. now split. }
  split; [exact Hfield |].
  assert (Hin : In "registration_id"
                   (Serializer.writable_fields (serializer_class vs))).
  { rewrite (gcm_viewsets_serializer fw vs Hvs). right. left. reflexivity. }
  rewrite create_unfold.
  destruct (ModelViewSet.check_permissions vs request2) as [[] | e] eqn:Hperm.
  - destruct (is_valid_error _ _ _ _ _ Hin Hfield) as (e & Hraise & He).
    rewrite Hraise. exists e. split; [reflexivity |]. split; [exact He |].
    intros _ Hsafe.
    destruct (is_valid_error_reported _ _ _ _ _ Hin Hfield Hsafe)
      as (errors & Hreported & Hentry).
    rewrite Hraise in Hreported. injection Hreported as ->.
    exists errors. now split.
  - exists e. split; [reflexivity |]. split; [| discriminate].
    intros detail ->. now apply check_permissions_raise in Hperm.
Qed.

Lemma gcm_registration_id_unique_witness :
  (ModelViewSet.create (GCMDeviceViewSet plain_framework)
     sample_request sample_world).2 = sample_world ∧
  (∃ errors,
     (ModelViewSet.create (GCMDeviceViewSet plain_framework)
        sample_request sample_world).1
     = Raise (ValidationError (ByField errors)) ∧
     In ("registration_id", Messages [unique_error]) errors) ∧
  unique_registration_ids (objects sample_world).
Proof.
  destruct (gcm_registration_id_unique plain_framework
              (GCMDeviceViewSet plain_framework)) as [Hsecond Hkeeps].
  - left. reflexivity.
  - destruct (Hsecond sample_request sample_request empty_world sample_world
                match (ModelViewSet.create (GCMDeviceViewSet plain_framework)
                         sample_request empty_world).1 with
                | Return o => o
                | Raise _ => None
                end)
      as [_ (e & He & _ & Hreported)].
    + vm_compute. reflexivity.
    + reflexivity.
    + rewrite He. simpl. split; [reflexivity |]. split.
      * destruct Hreported as (errors & -> & Hentry).
        -- reflexivity.
        -- intros name e' Hname. simpl in Hname.
           destruct Hname as [<- | [<- | [<- | [<- | []]]]];
             vm_compute; intros H; try discriminate H;
             injection H as <-; eexists; reflexivity.
        -- exists errors. now split.
      * apply (Hkeeps sample_request empty_world).
        intros i j ri rj Hi. simpl in Hi. rewrite lookup_empty in Hi.
        discriminate Hi.
Defined.

(** C6 with "the second creation fails with a uniqueness validation
    error" does not hold for every pair.  After [sample_request] has
    created the record "abc", a creation with the same registration id
    and a [device_id] that is a number ends in the [TypeError] of that
    field, and an unauthenticated creation with the same body on the
    authorized view set is refused by the permission check: neither
    fails with a validation error. *)
Lemma gcm_duplicate_without_uniqueness_error :
  (∃ d, ModelViewSet.create (GCMDeviceViewSet plain_framework)
          sample_request empty_world = (Return (Some d), sample_world)) ∧
  data numeric_device_request !! "registration_id"
  = data sample_request !! "registration_id" ∧
  ModelViewSet.create (GCMDeviceViewSet plain_framework)
    numeric_device_request sample_world = (Raise TypeError, sample_world) ∧
  (∃ d, ModelViewSet.create (GCMDeviceAuthorizedViewSet plain_framework)
          sample_request empty_world = (Return (Some d), sample_world)) ∧
  data anonymous_duplicate_request !! "registration_id"
  = data sample_request !! "registration_id" ∧
  ModelViewSet.create (GCMDeviceAuthorizedViewSet plain_framework)
    anonymous_duplicate_request sample_world
  = (Raise PermissionDenied, sample_world).
Proof.
  repeat split; try (vm_compute; reflexivity);
    eexists; vm_compute; reflexivity.
Qed.

Example gcm_duplicate_refused :
  (ModelViewSet.create (GCMDeviceViewSet plain_framework)
     sample_request sample_world).1
  = Raise (ValidationError
             (ByField [("registration_id", Messages [unique_error])])).
Proof. vm_compute. reflexivity. Qed.

(** ** Query scoping *)

Lemma authorized_viewsets_spec (fw : Framework) (vs : ViewSet) :
  In vs (authorized_viewsets fw) →
  permission_classes vs = AuthorizedMixin.permission_classes ∧
  get_queryset vs = AuthorizedMixin.get_queryset.
Proof. intros [<- | [<- | []]]; split; reflexivity. Qed.

Lemma authorized_check_permissions (fw : Framework) (vs : ViewSet)
    (request : Request) :
  In vs (authorized_viewsets fw) →
  ModelViewSet.check_permissions vs request =
  if is_authenticated (user request) then Return tt
  else Raise PermissionDenied.
Proof.
  intros Hvs. unfold ModelViewSet.check_permissions.
  rewrite (proj1 (authorized_viewsets_spec fw vs Hvs)). simpl.
  unfold IsAuthenticated.has_permission, BasePermission.has_permission.
  destruct (is_authenticated (user request)); reflexivity.
Qed.

(** C5, as the code has it.  On an ownership-authorized view set the
    query set of an authenticated user holds exactly the records whose
    owner is that user, and it is what [list] returns; a user who owns no
    record gets the empty set, and the access to a record the user does
    not own is answered with not-found.  An unauthenticated request is
    refused by the permission check, on [list] and on object access
    alike. *)
Theorem authorized_queryset_scoped (fw : Framework) (vs : ViewSet)
    (request : Request) (w : World) :
  In vs (authorized_viewsets fw) →
  match user request with
  | User p =>
      ∃ queryset,
        get_queryset vs (objects w) request = Return queryset ∧
        ModelViewSet.list_ vs request w = Return queryset ∧
        (∀ k row, queryset !! k = Some row ↔
                  objects w !! k = Some row ∧
                  row !! "user" = Some (VUser (User p))) ∧
        ((∀ k row, objects w !! k = Some row →
                   row !! "user" ≠ Some (VUser (User p))) →
         queryset = ∅) ∧
        (∀ lookup,
           (∀ k row, objects w !! k = Some row →
                     row !! "registration_id" = Some (VStr lookup) →
                     row !! "user" ≠ Some (VUser (User p))) →
           ModelViewSet.retrieve vs request lookup w = Raise Http404)
  | AnonymousUser =>
      ModelViewSet.list_ vs request w = Raise PermissionDenied ∧
      ∀ lookup,
        ModelViewSet.retrieve vs request lookup w = Raise PermissionDenied
  end.
Proof.
  intros Hvs.
  pose proof (authorized_check_permissions fw vs request Hvs) as Hperm.
  destruct (authorized_viewsets_spec fw vs Hvs) as [_ Hqs].
  unfold ModelViewSet.list_, ModelViewSet.retrieve, ModelViewSet.get_object.
  rewrite Hperm, Hqs. unfold AuthorizedMixin.get_queryset.
  destruct (user request) as [p |] eqn:Huser; simpl; [| split; reflexivity].
  eexists. split; [reflexivity |]. split; [reflexivity |].
  split; [| split].
  - intros k row. rewrite map_lookup_filter_Some. reflexivity.
  - intros Hnone. apply map_empty_filter. intros k row Hk. simpl.
    now apply (Hnone k row).
  - intros lookup Hnone.
    replace (filter _ (filter _ (objects w))) with (∅ : QuerySet).
    + rewrite map_to_list_empty. reflexivity.
    + symmetry. apply map_empty_filter. intros k row Hk. simpl.
      apply map_lookup_filter_Some in Hk as [Hk Hown]. simpl in Hown.
      intros Hlookup. now apply (Hnone k row).
Qed.

Lemma authorized_queryset_scoped_witness :
  ModelViewSet.list_ (GCMDeviceAuthorizedViewSet plain_framework)
    anonymous_request sample_world = Raise PermissionDenied ∧
  ∃ queryset,
    ModelViewSet.list_ (GCMDeviceAuthorizedViewSet plain_framework)
      sample_request sample_world = Return queryset ∧
    ModelViewSet.list_ (GCMDeviceAuthorizedViewSet plain_framework)
      {| user := User 8; data := ∅ |} sample_world = Return ∅.
Proof.
  split.
  - apply (authorized_queryset_scoped plain_framework
             (GCMDeviceAuthorizedViewSet plain_framework)
             anonymous_request sample_world).
    right. left. reflexivity.
  - destruct (authorized_queryset_scoped plain_framework
                (GCMDeviceAuthorizedViewSet plain_framework)
                sample_request sample_world) as (queryset & _ & Hlist & _).
    { right. left. reflexivity. }
    exists queryset. split; [exact Hlist |].
    destruct (authorized_queryset_scoped plain_framework
                (GCMDeviceAuthorizedViewSet plain_framework)
                {| user := User 8; data := ∅ |} sample_world)
      as (qs & _ & Hlist8 & _ & Hempty & _).
    { right. left. reflexivity. }
    rewrite Hlist8. f_equal. apply Hempty.
    change (map_Forall
              (λ (_ : nat) (row : gmap string val),
                 row !! "user" ≠ Some (VUser (User 8)))
              (objects sample_world)).
    apply (bool_decide_unpack _). vm_compute. exact I.
Defined.

(** C5 with "an unauthenticated requester obtains an empty set on list"
    does not hold: [list] does not answer an unauthenticated request with
    an empty set, it refuses the request. *)
Lemma authorized_list_anonymous_not_empty :
  ModelViewSet.list_ (GCMDeviceAuthorizedViewSet plain_framework)
    anonymous_request sample_world = Raise PermissionDenied ∧
  ModelViewSet.list_ (GCMDeviceAuthorizedViewSet plain_framework)
    anonymous_request sample_world ≠ Return ∅.
Proof. split; [reflexivity | discriminate]. Qed.

(** * Further properties of the module *)

(** ** The hex integer field *)

Lemma to_internal_value_with_return (text_int16 : string → option Z)
    (data v : val) :
  HexIntegerField.to_internal_value_with text_int16 data = Return v →
  ∃ s n, data = VStr s ∧ text_int16 s = Some n ∧ v = VInt n.
Proof.
  destruct data as [| b | n | s | u]; try discriminate.
  rewrite to_internal_value_with_string.
  destruct (text_int16 s) as [n |] eqn:Hs; [| discriminate].
  intros [= <-]. exists s, n. repeat split; assumption || reflexivity.
Qed.

Lemma to_internal_value_return (data v : val) :
  HexIntegerField.to_internal_value data = Return v →
  ∃ s n, data = VStr s ∧ Py.int16_of_string s = Some n ∧ v = VInt n.
Proof. apply to_internal_value_with_return. Qed.

(** X2. What the field returns is not something the field accepts: the
    representation of a stored device id is the integer itself, and given
    back to [to_internal_value] it raises [TypeError]. *)
Theorem to_representation_not_accepted (data v : val) :
  HexIntegerField.to_internal_value data = Return v →
  HexIntegerField.to_internal_value (HexIntegerField.to_representation v)
  = Raise TypeError.
Proof.
  intros Hv. apply to_internal_value_return in Hv as (s & n & _ & _ & ->).
  reflexivity.
Qed.

Lemma to_representation_not_accepted_witness :
  HexIntegerField.to_internal_value
    (HexIntegerField.to_representation (VInt 26)) = Raise TypeError.
Proof.
  apply (to_representation_not_accepted (VStr "0x1A") (VInt 26)).
  reflexivity.
Defined.

(** ** What a creation does to the table *)

(** The facts a successful [create] gives. *)
Lemma create_inv (vs : ViewSet) (request : Request) (w w' : World)
    (obj : option Device) :
  ModelViewSet.create vs request w = (Return obj, w') →
  ∃ validated,
    ModelViewSet.check_permissions vs request = Return tt ∧
    Serializer.is_valid (serializer_class vs) (objects w) (data request)
    = Return validated ∧
    obj = Some {| pk := fresh (dom (objects w));
                  attrs := created_attrs (user request) validated |} ∧
    objects w' = <[fresh (dom (objects w)) :=
                     created_attrs (user request) validated]> (objects w).
Proof.
  rewrite create_unfold.
  destruct (ModelViewSet.check_permissions vs request) as [[] |];
    [| discriminate].
  destruct (Serializer.is_valid _ _ _) as [validated |]; [| discriminate].
  cbv zeta. intros [= <- <-]. exists validated. repeat split.
Qed.

(** The owner and the place of the record a device view set creates. *)
Lemma created_record_owner (fw : Framework) (vs : ViewSet)
    (request : Request) (w w' : World) (obj : option Device) :
  In vs (device_viewsets fw) →
  ModelViewSet.create vs request w = (Return obj, w') →
  ∃ d, obj = Some d ∧
       objects w !! pk d = None ∧
       objects w' !! pk d = Some (attrs d) ∧
       attrs d !! "user" =
         match user request with
         | User p => Some (VUser (User p))
         | AnonymousUser => None
         end.
Proof.
  intros Hvs Hcreate.
  destruct (create_inv _ _ _ _ _ Hcreate) as (validated & _ & Hvalid & -> & ->).
  destruct (device_viewsets_fields fw vs Hvs) as [_ Hwritable].
  eexists. split; [reflexivity |]. simpl. split; [| split].
  - apply not_elem_of_dom, is_fresh.
  - apply lookup_insert_eq.
  - apply created_attrs_user.
    destruct (validated !! "user") as [x |] eqn:Hx; [| reflexivity].
    destruct (is_valid_lookup _ _ _ _ _ _ Hvalid Hx) as [Hin _].
    rewrite Hwritable in Hin. simpl in Hin.
    repeat (destruct Hin as [Hin | Hin]; [discriminate Hin |]).
    destruct Hin.
Qed.

(** X4. A successful creation adds one row and touches no other: though
    an authenticated creation saves twice, the table has exactly one
    record more, under a primary key that was free, and every other
    record is as before. *)
Theorem create_adds_one_row (vs : ViewSet) (request : Request)
    (w w' : World) (obj : option Device) :
  ModelViewSet.create vs request w = (Return obj, w') →
  ∃ d, obj = Some d ∧
       objects w !! pk d = None ∧
       objects w' = <[pk d := attrs d]> (objects w) ∧
       size (objects w') = S (size (objects w)) ∧
       ∀ k, k ≠ pk d → objects w' !! k = objects w !! k.
Proof.
  intros Hcreate.
  destruct (create_inv _ _ _ _ _ Hcreate) as (validated & _ & _ & -> & ->).
  eexists. split; [reflexivity |]. simpl.
  assert (Hfresh : objects w !! fresh (dom (objects w)) = None)
    by apply not_elem_of_dom, is_fresh.
  repeat split.
  - exact Hfresh.
  - now apply map_size_insert_None.
  - intros k Hk. now apply lookup_insert_ne.
Qed.

Lemma create_adds_one_row_witness :
  size (objects sample_world) = 1%nat.
Proof.
  destruct (create_adds_one_row (GCMDeviceViewSet plain_framework)
              sample_request empty_world sample_world
              match (ModelViewSet.create (GCMDeviceViewSet plain_framework)
                       sample_request empty_world).1 with
              | Return o => o
              | Raise _ => None
              end) as (d & _ & _ & _ & Hsize & _).
  - vm_compute. reflexivity.
  - rewrite Hsize. reflexivity.
Defined.

(** X5. What validation produced is what the record holds: every value
    of the validated data, the owner apart, is stored unchanged under
    the name of its field, also when the record is saved twice. *)
Theorem create_stores_validated_data (vs : ViewSet) (request : Request)
    (w w' : World) (obj : option Device) :
  ModelViewSet.create vs request w = (Return obj, w') →
  ∃ d validated,
    obj = Some d ∧
    Serializer.is_valid (serializer_class vs) (objects w) (data request)
    = Return validated ∧
    ∀ k v, k ≠ "user" → validated !! k = Some v →
           attrs d !! k = Some v ∧
           ∃ row, objects w' !! pk d = Some row ∧ row !! k = Some v.
Proof.
  intros Hcreate.
  destruct (create_inv _ _ _ _ _ Hcreate) as (validated & _ & Hvalid & -> & ->).
  eexists _, validated. split; [reflexivity |]. split; [exact Hvalid |].
  intros k v Hk Hv. simpl.
  assert (Hattr : created_attrs (user request) validated !! k = Some v)
    by (now rewrite created_attrs_lookup).
  split; [exact Hattr |].
  eexists. split; [apply lookup_insert_eq | exact Hattr].
Qed.

Lemma create_stores_validated_data_witness :
  ∃ d, (ModelViewSet.create (GCMDeviceViewSet plain_framework)
          sample_request empty_world).1 = Return (Some d) ∧
       attrs d !! "registration_id" = Some (VStr "abc").
Proof.
  destruct (create_stores_validated_data (GCMDeviceViewSet plain_framework)
              sample_request empty_world sample_world
              match (ModelViewSet.create (GCMDeviceViewSet plain_framework)
                       sample_request empty_world).1 with
              | Return o => o
              | Raise _ => None
              end) as (d & validated & Hobj & Hvalid & Hattrs).
  - vm_compute. reflexivity.
  - exists d. split.
    + rewrite <- Hobj. vm_compute. reflexivity.
    + apply (Hattrs "registration_id" (VStr "abc")); [discriminate |].
      assert (Hv : Serializer.is_valid
                     (serializer_class (GCMDeviceViewSet plain_framework))
                     (objects empty_world) (data sample_request)
                   = Return (<["registration_id" := VStr "abc"]> ∅))
        by (vm_compute; reflexivity).
      rewrite Hv in Hvalid. injection Hvalid as <-.
      apply lookup_insert_eq.
Defined.

(** X6. When the validated data hold no [user] entry, the second
    [serializer.save] of [perform_create] writes the row the first one
    wrote: after [perform_create] the table is the one after
    [save(user=request.user)] alone. *)
Theorem perform_create_second_save_idle (request : Request)
    (serializer : Serializer) (w : World) (p : nat) :
  user request = User p →
  validated_data serializer !! "user" = None →
  objects (DeviceViewSetMixin.perform_create request serializer w).2 =
  objects (ModelSerializer.save {["user" := VUser (User p)]} serializer w).2.
Proof.
  intros Huser Hnone. rewrite perform_create_unfold, Huser. cbv zeta.
  rewrite !save_unfold. simpl. rewrite insert_insert_eq. f_equal.
  rewrite (left_id_L ∅ (∪)).
  set (first := {["user" := VUser (User p)]} ∪ validated_data serializer).
  assert (Hsub : ∀ rest : gmap string val,
            validated_data serializer ∪ (first ∪ rest) = first ∪ rest).
  { intros rest. apply map_eq. intros k.
    destruct (validated_data serializer !! k) as [x |] eqn:Hk.
    - rewrite (lookup_union_Some_l _ _ _ _ Hk). symmetry.
      apply lookup_union_Some_l. unfold first.
      rewrite lookup_union_r; [assumption |].
      apply lookup_singleton_ne. intros <-. congruence.
    - now rewrite lookup_union_r. }
  destruct (instance serializer) as [inst |]; simpl.
  - apply Hsub.
  - specialize (Hsub ∅). now rewrite (right_id_L ∅ (∪)) in Hsub.
Qed.

Lemma perform_create_second_save_idle_witness :
  objects (DeviceViewSetMixin.perform_create sample_request
             {| validated_data := {["registration_id" := VStr "abc"]};
                instance := None |} empty_world).2 =
  objects (ModelSerializer.save {["user" := VUser (User 7)]}
             {| validated_data := {["registration_id" := VStr "abc"]};
                instance := None |} empty_world).2.
Proof.
  apply (perform_create_second_save_idle sample_request _ empty_world 7).
  - reflexivity.
  - vm_compute. reflexivity.
Defined.

(** X7. [perform_create] alone does not protect the owner: if the
    validated data of the serializer held a [user] entry, the second
    [serializer.save] would write that entry over the user of the
    request.  The owner is safe because the serializers of this module
    do not list [user] among their fields. *)
Theorem perform_create_trusts_validated_user (request : Request)
    (serializer : Serializer) (w : World) (p : nat) (x : val) :
  user request = User p →
  validated_data serializer !! "user" = Some x →
  ∃ d, instance (DeviceViewSetMixin.perform_create request serializer w).1
       = Some d ∧
       attrs d !! "user" = Some x ∧
       objects (DeviceViewSetMixin.perform_create request serializer w).2
         !! pk d = Some (attrs d).
Proof.
  intros Huser Hx. rewrite perform_create_unfold, Huser. cbv zeta.
  rewrite !save_unfold. simpl.
  eexists. split; [reflexivity |]. simpl. split.
  - apply lookup_union_Some_l. now rewrite (left_id_L ∅ (∪)).
  - apply lookup_insert_eq.
Qed.

Lemma perform_create_trusts_validated_user_witness :
  ∃ d, instance (DeviceViewSetMixin.perform_create sample_request
                   {| validated_data := data sample_request;
                      instance := None |} empty_world).1 = Some d ∧
       attrs d !! "user" = Some (VUser (User 99)).
Proof.
  destruct (perform_create_trusts_validated_user sample_request
              {| validated_data := data sample_request; instance := None |}
              empty_world 7 (VUser (User 99))) as (d & Hd & Huser & _).
  - reflexivity.
  - vm_compute. reflexivity.
  - exists d. split; assumption.
Defined.

(** ** What the serializers let through *)

(** X8. [date_created] is read-only: the validated data never hold it,
    and a body is validated without regard to what it holds under that
    name (or under any name that is not a field). *)
Theorem date_created_is_read_only (fw : Framework) (vs : ViewSet)
    (queryset : QuerySet) (d1 d2 : gmap string val) :
  In vs (device_viewsets fw) →
  (∀ name, In name ["name"; "registration_id"; "device_id"; "active"] →
           d1 !! name = d2 !! name) →
  Serializer.is_valid (serializer_class vs) queryset d1
  = Serializer.is_valid (serializer_class vs) queryset d2 ∧
  ∀ validated,
    Serializer.is_valid (serializer_class vs) queryset d1 = Return validated →
    validated !! "date_created" = None.
Proof.
  intros Hvs Hagree.
  destruct (device_viewsets_fields fw vs Hvs) as [_ Hwritable]. split.
  - unfold Serializer.is_valid. rewrite Hwritable.
    now rewrite (validate_fields_ext _ _ d1 d2).
  - intros validated Hvalid.
    destruct (validated !! "date_created") as [x |] eqn:Hx; [| reflexivity].
    destruct (is_valid_lookup _ _ _ _ _ _ Hvalid Hx) as [Hin _].
    rewrite Hwritable in Hin. simpl in Hin.
    repeat (destruct Hin as [Hin | Hin]; [discriminate Hin |]).
    destruct Hin.
Qed.

Lemma date_created_is_read_only_witness :
  Serializer.is_valid (serializer_class (GCMDeviceViewSet plain_framework))
    ∅ (data dated_request)
  = Serializer.is_valid (serializer_class (GCMDeviceViewSet plain_framework))
      ∅ (data sample_request).
Proof.
  apply (date_created_is_read_only plain_framework
           (GCMDeviceViewSet plain_framework) ∅
           (data dated_request) (data sample_request)).
  - right. right. left. reflexivity.
  - intros name [<- | [<- | [<- | [<- | []]]]]; vm_compute; reflexivity.
Defined.

Lemma apns_viewsets_serializer (fw : Framework) (vs : ViewSet) :
  In vs (apns_viewsets fw) →
  serializer_class vs = APNSDeviceSerializer_class fw.
Proof. intros [<- | [<- | []]]; reflexivity. Qed.

(** X9. The APNS serializer gives [active] the default [True]: an APNS
    record created from a body without an [active] entry is stored
    active, whatever the model field is. *)
Theorem apns_active_defaults_to_true (fw : Framework) (vs : ViewSet)
    (request : Request) (w w' : World) (obj : option Device) :
  In vs (apns_viewsets fw) →
  data request !! "active" = None →
  ModelViewSet.create vs request w = (Return obj, w') →
  ∃ d, obj = Some d ∧ attrs d !! "active" = Some (VBool true).
Proof.
  intros Hvs Hactive Hcreate.
  destruct (create_inv _ _ _ _ _ Hcreate) as (validated & _ & Hvalid & -> & _).
  rewrite (apns_viewsets_serializer fw vs Hvs) in Hvalid.
  eexists. split; [reflexivity |]. simpl.
  rewrite created_attrs_lookup by discriminate.
  destruct (is_valid_complete _ _ _ _ "active" Hvalid) as (o & Hfield & Hstored).
  { right. right. right. left. reflexivity. }
  apply Hstored. unfold Serializer.field_value, Serializer.run_validation in Hfield.
  rewrite Hactive in Hfield. simpl in Hfield. now injection Hfield as <-.
Qed.

Lemma apns_active_defaults_to_true_witness :
  ∃ d, (ModelViewSet.create (APNSDeviceViewSet plain_framework)
          apns_request empty_world).1 = Return (Some d) ∧
       attrs d !! "active" = Some (VBool true).
Proof.
  destruct (apns_active_defaults_to_true plain_framework
              (APNSDeviceViewSet plain_framework) apns_request empty_world
              (ModelViewSet.create (APNSDeviceViewSet plain_framework)
                 apns_request empty_world).2
              match (ModelViewSet.create (APNSDeviceViewSet plain_framework)
                       apns_request empty_world).1 with
              | Return o => o
              | Raise _ => None
              end) as (d & Hobj & Hactive).
  - left. reflexivity.
  - vm_compute. reflexivity.
  - vm_compute. reflexivity.
  - exists d. split; [| exact Hactive].
    rewrite <- Hobj. vm_compute. reflexivity.
Defined.

(** X10. The GCM serializer does not have that default: its
    [extra_kwargs] replaces the inherited one.  Validating a body
    without an [active] entry, the GCM serializer puts under [active]
    only what the field derived from the model has for a default, and
    nothing when that field has none. *)
Theorem gcm_active_default_not_inherited (fw : Framework)
    (queryset : QuerySet) (data validated : gmap string val) :
  data !! "active" = None →
  Serializer.is_valid (GCMDeviceSerializer_class fw) queryset data
  = Return validated →
  validated !! "active" = default_value (model_field fw GCMDevice "active").
Proof.
  intros Hactive Hvalid.
  assert (Hfield :
    Serializer.field_value (GCMDeviceSerializer_class fw) queryset
                           data "active"
    = if required (model_field fw GCMDevice "active")
      then Raise (ValidationError (Messages ["This field is required."]))
      else Return (default_value (model_field fw GCMDevice "active"))).
  { unfold Serializer.field_value, Serializer.run_validation.
    rewrite Hactive.
    change (get_field (GCMDeviceSerializer_class fw) "active")
      with (model_field fw GCMDevice "active").
    destruct (required _); [reflexivity |]. simpl.
    now destruct (default_value _). }
  destruct (is_valid_complete _ _ _ _ "active" Hvalid) as (o & Ho & Hstored).
  { right. right. right. left. reflexivity. }
  rewrite Hfield in Ho.
  destruct (required (model_field fw GCMDevice "active")); [discriminate |].
  injection Ho as <-.
  destruct (default_value (model_field fw GCMDevice "active")) as [dv |] eqn:Hdv.
  - now apply Hstored.
  - destruct (validated !! "active") as [x |] eqn:Hx; [| reflexivity].
    destruct (is_valid_lookup _ _ _ _ _ _ Hvalid Hx) as [_ Hf].
    rewrite Hfield in Hf. discriminate.
Qed.

Lemma gcm_active_default_not_inherited_witness :
  ∃ validated,
    Serializer.is_valid (GCMDeviceSerializer_class plain_framework)
      ∅ (data sample_request) = Return validated ∧
    validated !! "active" = None.
Proof.
  eexists. split; [vm_compute; reflexivity |].
  apply (gcm_active_default_not_inherited plain_framework ∅
           (data sample_request)).
  - vm_compute. reflexivity.
  - vm_compute. reflexivity.
Defined.

(** The [device_id] field of the GCM serializer, step by step. *)
Lemma gcm_device_id_value (fw : Framework) (queryset : QuerySet)
    (data : gmap string val) :
  Serializer.field_value (GCMDeviceSerializer_class fw) queryset data
                         "device_id" =
  match data !! "device_id" with
  | None => Return None
  | Some VNone =>
      Raise (ValidationError (Messages ["This field may not be null."]))
  | Some raw =>
      bind (validate_gcm_device_id_with (text_int16 fw) raw)
           (fun v => Return (Some v))
  end.
Proof.
  unfold Serializer.field_value, Serializer.run_validation,
    validate_gcm_device_id_with.
  destruct (data !! "device_id") as [[] |]; simpl; try reflexivity.
  destruct (HexIntegerField.to_internal_value_with _ (VStr s)); reflexivity.
Qed.

Lemma validate_gcm_device_id_with_return (text_int16 : string → option Z)
    (raw v : val) :
  validate_gcm_device_id_with text_int16 raw = Return v →
  ∃ s n, raw = VStr s ∧ text_int16 s = Some n ∧
         n <= 9223372036854775807 ∧ v = VInt n.
Proof.
  unfold validate_gcm_device_id_with.
  destruct (HexIntegerField.to_internal_value_with text_int16 raw) as [x |]
    eqn:Hx; [| discriminate].
  apply to_internal_value_with_return in Hx as (s & n & -> & Hs & ->). simpl.
  rewrite validate_device_id_int. unfold BIGINT_MAX_VALUE.
  destruct (Z.gtb_spec n 9223372036854775807); [discriminate |].
  intros [= <-]. exists s, n. repeat split; assumption || lia.
Qed.

(** X11. Every GCM record a creation stores has a sound [device_id]: it
    has none when the body has none, and otherwise the body holds a
    string and the record the integer that the interpreter's
    [int(text, 16)] reads in that string, which is at most
    9223372036854775807. *)
Theorem gcm_create_device_id (fw : Framework) (vs : ViewSet)
    (request : Request) (w w' : World) (obj : option Device) :
  In vs (gcm_viewsets fw) →
  ModelViewSet.create vs request w = (Return obj, w') →
  ∃ d, obj = Some d ∧
       match data request !! "device_id" with
       | None => attrs d !! "device_id" = None
       | Some raw =>
           ∃ s n, raw = VStr s ∧ text_int16 fw s = Some n ∧
                  n <= 9223372036854775807 ∧
                  attrs d !! "device_id" = Some (VInt n)
       end.
Proof.
  intros Hvs Hcreate.
  destruct (create_inv _ _ _ _ _ Hcreate) as (validated & _ & Hvalid & -> & _).
  rewrite (gcm_viewsets_serializer fw vs Hvs) in Hvalid.
  eexists. split; [reflexivity |]. simpl.
  rewrite created_attrs_lookup by discriminate.
  destruct (is_valid_complete _ _ _ _ "device_id" Hvalid)
    as (o & Hfield & Hstored).
  { right. right. left. reflexivity. }
  pose proof (gcm_device_id_value fw (objects w) (data request)) as Hstep.
  rewrite Hfield in Hstep.
  destruct (data request !! "device_id") as [raw |].
  - assert (Hv : ∃ v, validate_gcm_device_id_with (text_int16 fw) raw
                      = Return v ∧ o = Some v).
    { destruct raw; try discriminate Hstep;
        (destruct (validate_gcm_device_id_with _ _) as [v |] eqn:Hv;
         [| discriminate Hstep]; injection Hstep as ->; eauto). }
    destruct Hv as (v & Hv & ->).
    apply validate_gcm_device_id_with_return in Hv
      as (s & n & -> & Hs & Hn & ->).
    exists s, n. repeat split; try assumption. now apply Hstored.
  - injection Hstep as ->.
    destruct (validated !! "device_id") as [x |] eqn:Hx; [| reflexivity].
    destruct (is_valid_lookup _ _ _ _ _ _ Hvalid Hx) as [_ Hf].
    rewrite Hfield in Hf. discriminate.
Qed.

Lemma gcm_create_device_id_witness :
  ∃ d, (ModelViewSet.create (GCMDeviceViewSet plain_framework)
          hex_device_request empty_world).1 = Return (Some d) ∧
       attrs d !! "device_id" = Some (VInt 26).
Proof.
  destruct (gcm_create_device_id plain_framework
              (GCMDeviceViewSet plain_framework) hex_device_request
              empty_world
              (ModelViewSet.create (GCMDeviceViewSet plain_framework)
                 hex_device_request empty_world).2
              match (ModelViewSet.create (GCMDeviceViewSet plain_framework)
                       hex_device_request empty_world).1 with
              | Return o => o
              | Raise _ => None
              end) as (d & Hobj & Hdev).
  - left. reflexivity.
  - vm_compute. reflexivity.
  - exists d. split; [rewrite <- Hobj; vm_compute; reflexivity |].
    assert (Hraw : data hex_device_request !! "device_id"
                   = Some (VStr "0x1A")) by (vm_compute; reflexivity).
    rewrite Hraw in Hdev. destruct Hdev as (s & n & [= <-] & Hs & _ & Hattr).
    assert (Hn : text_int16 plain_framework "0x1A" = Some 26)
      by reflexivity.
    rewrite Hn in Hs. injection Hs as <-. exact Hattr.
Defined.

Lemma validate_registration_id_return (v v' : val) :
  APNSDeviceSerializer.validate_registration_id v = Return v' →
  ∃ s, v = VStr s ∧ v' = VStr s ∧ is_hex_token s.
Proof.
  destruct v as [| b | n | s | u]; try discriminate.
  rewrite validate_registration_id_eval.
  destruct (fields.hex_re_matches s && Nat.eqb (String.length s) 64)%bool
    eqn:Hok; [| discriminate].
  intros [= <-]. exists s.
  split; [reflexivity | split; [reflexivity | now apply is_hex_token_decide]].
Qed.

(** X12. Every APNS record a creation stores has a device token for
    registration id: a string of 64 hexadecimal characters. *)
Theorem apns_create_registration_id (fw : Framework) (vs : ViewSet)
    (request : Request) (w w' : World) (obj : option Device) :
  In vs (apns_viewsets fw) →
  ModelViewSet.create vs request w = (Return obj, w') →
  ∃ d s, obj = Some d ∧
         attrs d !! "registration_id" = Some (VStr s) ∧
         is_hex_token s.
Proof.
  intros Hvs Hcreate.
  destruct (create_inv _ _ _ _ _ Hcreate) as (validated & _ & Hvalid & -> & _).
  rewrite (apns_viewsets_serializer fw vs Hvs) in Hvalid.
  destruct (is_valid_complete _ _ _ _ "registration_id" Hvalid)
    as (o & Hfield & Hstored).
  { right. left. reflexivity. }
  assert (Htoken : ∃ s, o = Some (VStr s) ∧ is_hex_token s).
  { unfold Serializer.field_value, Serializer.run_validation in Hfield.
    change (validate_method (APNSDeviceSerializer_class fw) "registration_id")
      with (Some APNSDeviceSerializer.validate_registration_id) in Hfield.
    change (required (get_field (APNSDeviceSerializer_class fw)
                                "registration_id")) with true in Hfield.
    change (allow_null (get_field (APNSDeviceSerializer_class fw)
                                  "registration_id")) with false in Hfield.
    destruct (data request !! "registration_id") as [raw |];
      [| discriminate Hfield].
    assert (Hrun : ∃ v,
      bind (to_internal_value
              (get_field (APNSDeviceSerializer_class fw) "registration_id") raw)
           (fun v =>
              bind (Serializer.run_validators
                      (validators (get_field (APNSDeviceSerializer_class fw)
                                             "registration_id"))
                      (objects w) v [])
                   (fun _ => Return (Some v))) = Return (Some v) ∧
      bind (APNSDeviceSerializer.validate_registration_id v)
           (fun v' => Return (Some v')) = Return o).
    { destruct raw; try discriminate Hfield;
        (destruct (bind (to_internal_value _ _) _) as [[v |] |] eqn:Hb;
         simpl in Hfield; try discriminate Hfield; [eauto |]);
        (destruct (to_internal_value _ _); simpl in Hb; [| discriminate Hb];
         destruct (Serializer.run_validators _ _ _ _); discriminate Hb). }
    destruct Hrun as (v & _ & Hmethod).
    destruct (APNSDeviceSerializer.validate_registration_id v) as [v' |]
      eqn:Hv; [| discriminate Hmethod].
    injection Hmethod as <-.
    apply validate_registration_id_return in Hv as (s & _ & -> & Hs). eauto. }
  destruct Htoken as (s & -> & Hs).
  eexists _, s. split; [reflexivity |]. simpl. split; [| exact Hs].
  rewrite created_attrs_lookup by discriminate. now apply Hstored.
Qed.

Lemma apns_create_registration_id_witness :
  ∃ d s, (ModelViewSet.create (APNSDeviceViewSet plain_framework)
            apns_request empty_world).1 = Return (Some d) ∧
         attrs d !! "registration_id" = Some (VStr s) ∧
         String.length s = 64%nat.
Proof.
  destruct (apns_create_registration_id plain_framework
              (APNSDeviceViewSet plain_framework) apns_request empty_world
              (ModelViewSet.create (APNSDeviceViewSet plain_framework)
                 apns_request empty_world).2
              match (ModelViewSet.create (APNSDeviceViewSet plain_framework)
                       apns_request empty_world).1 with
              | Return o => o
              | Raise _ => None
              end) as (d & s & Hobj & Hrid & Hlen & _).
  - left. reflexivity.
  - vm_compute. reflexivity.
  - exists d, s. split; [rewrite <- Hobj; vm_compute; reflexivity |].
    split; assumption.
Defined.

(** An exception of a field that is not a validation error ends the
    loop, with an exception that is not a validation error. *)
Lemma validate_fields_crash (sc : SerializerClass) (queryset : QuerySet)
    (data : gmap string val) (name : string) (e : exn) (names : list string) :
  In name names →
  Serializer.field_value sc queryset data name = Raise e →
  (∀ detail, e ≠ ValidationError detail) →
  ∀ acc, ∃ e', Serializer.validate_fields sc queryset data names acc = Raise e' ∧
               ∀ detail, e' ≠ ValidationError detail.
Proof.
  intros Hname Hraise Hnot.
  induction names as [| n names IH]; [destruct Hname |].
  intros [errors0 ret0]. rewrite validate_fields_step.
  destruct (Serializer.field_value sc queryset data n) as [[x |] | e0] eqn:Hn.
  - destruct Hname as [-> | Hname]; [congruence | now apply IH].
  - destruct Hname as [-> | Hname]; [congruence | now apply IH].
  - destruct e0;
      try (eexists; split; [reflexivity | discriminate]).
    destruct Hname as [-> | Hname]; [| now apply IH].
    rewrite Hraise in Hn. injection Hn as ->. now destruct (Hnot detail).
Qed.

(** X13. A GCM creation whose body holds a [device_id] that is not a
    string (a JSON number or boolean) is not answered with a validation
    error: the [TypeError] of the field, or an exception raised before
    it, leaves the view, and nothing is stored. *)
Theorem gcm_create_device_id_not_text (fw : Framework) (vs : ViewSet)
    (request : Request) (w : World) (raw : val) :
  In vs (gcm_viewsets fw) →
  data request !! "device_id" = Some raw →
  raw ≠ VNone →
  (∀ s, raw ≠ VStr s) →
  ∃ e, ModelViewSet.create vs request w = (Raise e, w) ∧
       ∀ detail, e ≠ ValidationError detail.
Proof.
  intros Hvs Hraw Hnn Hns. rewrite create_unfold.
  destruct (ModelViewSet.check_permissions vs request) as [[] | e] eqn:Hperm.
  - rewrite (gcm_viewsets_serializer fw vs Hvs).
    assert (Hfield :
      Serializer.field_value (GCMDeviceSerializer_class fw) (objects w)
                             (data request) "device_id" = Raise TypeError).
    { rewrite gcm_device_id_value, Hraw.
      destruct raw as [| b | n | s | u]; try reflexivity;
        [now destruct Hnn | now destruct (Hns s)]. }
    destruct (validate_fields_crash _ _ _ _ _
                (Serializer.writable_fields (GCMDeviceSerializer_class fw))
                (or_intror (or_intror (or_introl eq_refl))) Hfield
                ltac:(discriminate) ([], ∅)) as (e & He & Hnot).
    unfold Serializer.is_valid. rewrite He. simpl. eauto.
  - apply check_permissions_raise in Hperm as ->.
    eexists. split; [reflexivity | discriminate].
Qed.

Lemma gcm_create_device_id_not_text_witness :
  ModelViewSet.create (GCMDeviceViewSet plain_framework)
    numeric_device_request empty_world = (Raise TypeError, empty_world).
Proof.
  destruct (gcm_create_device_id_not_text plain_framework
              (GCMDeviceViewSet plain_framework) numeric_device_request
              empty_world (VInt 26)) as (e & He & _).
  - left. reflexivity.
  - vm_compute. reflexivity.
  - discriminate.
  - discriminate.
  - rewrite He. f_equal.
    assert (Hrun : (ModelViewSet.create (GCMDeviceViewSet plain_framework)
                      numeric_device_request empty_world).1 = Raise TypeError)
      by (vm_compute; reflexivity).
    rewrite He in Hrun. exact Hrun.
Defined.

(** ** The ownership-authorized view sets *)

(** X14. The ownership-authorized view sets take no anonymous
    registration: the creation of an unauthenticated request is refused
    before the body is looked at, and nothing is stored. *)
Theorem authorized_create_anonymous_refused (fw : Framework) (vs : ViewSet)
    (request : Request) (w : World) :
  In vs (authorized_viewsets fw) →
  user request = AnonymousUser →
  ModelViewSet.create vs request w = (Raise PermissionDenied, w).
Proof.
  intros Hvs Huser. unfold ModelViewSet.create.
  rewrite (authorized_check_permissions fw vs request Hvs), Huser.
  reflexivity.
Qed.

Lemma authorized_create_anonymous_refused_witness :
  ModelViewSet.create (APNSDeviceAuthorizedViewSet plain_framework)
    apns_request empty_world = (Raise PermissionDenied, empty_world).
Proof.
  apply (authorized_create_anonymous_refused plain_framework).
  - left. reflexivity.
  - reflexivity.
Defined.

(** X15. Whatever [retrieve] returns on an ownership-authorized view set
    is a stored record, with the registration id of the URL, whose owner
    is the user of the request. *)
Theorem authorized_retrieve_sound (fw : Framework) (vs : ViewSet)
    (request : Request) (lookup : string) (w : World) (d : Device) :
  In vs (authorized_viewsets fw) →
  ModelViewSet.retrieve vs request lookup w = Return d →
  objects w !! pk d = Some (attrs d) ∧
  attrs d !! "registration_id" = Some (VStr lookup) ∧
  attrs d !! "user" = Some (VUser (user request)) ∧
  is_authenticated (user request) = true.
Proof.
  intros Hvs. unfold ModelViewSet.retrieve, ModelViewSet.get_object.
  rewrite (authorized_check_permissions fw vs request Hvs).
  rewrite (proj2 (authorized_viewsets_spec fw vs Hvs)).
  unfold AuthorizedMixin.get_queryset.
  destruct (user request) as [p |] eqn:Huser; simpl; [| discriminate].
  destruct (map_to_list _) as [| [k row] [| ? ?]] eqn:Hlist;
    try discriminate.
  destruct (ModelViewSet.check_object_permissions vs request _);
    simpl; [| discriminate].
  intros [= <-]. simpl.
  assert (Hin : (k, row) ∈ [(k, row)]) by apply list_elem_of_here.
  rewrite <- Hlist in Hin. apply elem_of_map_to_list in Hin.
  apply map_lookup_filter_Some in Hin as [Hin Hrid].
  apply map_lookup_filter_Some in Hin as [Hin Hown].
  simpl in Hrid, Hown. repeat split; assumption.
Qed.

Lemma authorized_retrieve_sound_witness :
  ∃ d, ModelViewSet.retrieve (GCMDeviceAuthorizedViewSet plain_framework)
         sample_request "abc" sample_world = Return d ∧
       attrs d !! "user" = Some (VUser (User 7)).
Proof.
  destruct (authorized_retrieve_sound plain_framework
              (GCMDeviceAuthorizedViewSet plain_framework)
              sample_request "abc" sample_world
              match ModelViewSet.retrieve
                      (GCMDeviceAuthorizedViewSet plain_framework)
                      sample_request "abc" sample_world with
              | Return d => d
              | Raise _ => {| pk := 0; attrs := ∅ |}
              end) as (_ & _ & Huser & _).
  - right. left. reflexivity.
  - vm_compute. reflexivity.
  - eexists. split; [| exact Huser]. vm_compute. reflexivity.
Defined.

(** X16. Create, then retrieve: on the authorized GCM view set, when the
    stored registration ids are distinct, the record a user has just
    created is the one [retrieve] returns to that user under its
    registration id. *)
Theorem gcm_create_then_retrieve (fw : Framework) (request : Request)
    (w w' : World) (d : Device) (lookup : string) :
  unique_registration_ids (objects w) →
  ModelViewSet.create (GCMDeviceAuthorizedViewSet fw) request w
  = (Return (Some d), w') →
  attrs d !! "registration_id" = Some (VStr lookup) →
  ModelViewSet.retrieve (GCMDeviceAuthorizedViewSet fw) request lookup w'
  = Return d.
Proof.
  intros Hunique Hcreate Hrid.
  set (vs := GCMDeviceAuthorizedViewSet fw) in *.
  assert (Hgcm : In vs (gcm_viewsets fw)) by (right; left; reflexivity).
  assert (Hauth : In vs (authorized_viewsets fw)) by (right; left; reflexivity).
  assert (Hdev : In vs (device_viewsets fw))
    by (right; right; right; left; reflexivity).
  pose proof (gcm_create_unique fw vs request w Hgcm Hunique) as Hunique'.
  rewrite Hcreate in Hunique'. simpl in Hunique'.
  destruct (created_record_owner fw vs request w w' (Some d) Hdev Hcreate)
    as (d0 & [= <-] & _ & Hstored & Huser).
  destruct (create_inv _ _ _ _ _ Hcreate) as (validated & Hperm & _ & _ & _).
  rewrite (authorized_check_permissions fw vs request Hauth) in Hperm.
  destruct (user request) as [p |] eqn:Hp; [| discriminate Hperm].
  unfold ModelViewSet.retrieve, ModelViewSet.get_object.
  rewrite (authorized_check_permissions fw vs request Hauth), Hp. simpl.
  unfold AuthorizedMixin.get_queryset. rewrite Hp. simpl.
  assert (Hone :
    filter (λ kv : nat * gmap string val,
              kv.2 !! DeviceViewSetMixin.lookup_field = Some (VStr lookup))
      (filter (λ kv : nat * gmap string val,
                 kv.2 !! "user" = Some (VUser (User p))) (objects w'))
    = {[pk d := attrs d]}).
  { apply map_eq. intros k. destruct (decide (k = pk d)) as [-> | Hk].
    - rewrite lookup_singleton_eq. apply map_lookup_filter_Some.
      split; [| exact Hrid]. apply map_lookup_filter_Some. now split.
    - rewrite lookup_singleton_ne by congruence.
      apply eq_None_not_Some. intros [row Hrow].
      apply map_lookup_filter_Some in Hrow as [Hrow Hsame].
      apply map_lookup_filter_Some in Hrow as [Hrow _]. simpl in Hsame.
      unfold DeviceViewSetMixin.lookup_field in Hsame.
      apply Hk. apply (Hunique' k (pk d) row (attrs d)); try assumption.
      + rewrite Hsame. eauto.
      + now rewrite Hsame, Hrid. }
  rewrite Hone, map_to_list_singleton.
  unfold ModelViewSet.check_object_permissions. simpl.
  unfold BasePermission.has_object_permission, IsOwner.has_object_permission,
    getattr. simpl. rewrite Huser, Hp. simpl. rewrite Nat.eqb_refl. simpl.
  now destruct d.
Qed.

Lemma gcm_create_then_retrieve_witness :
  ∃ d, (ModelViewSet.create (GCMDeviceAuthorizedViewSet plain_framework)
          sample_request empty_world).1 = Return (Some d) ∧
       ModelViewSet.retrieve (GCMDeviceAuthorizedViewSet plain_framework)
         sample_request "abc"
         (ModelViewSet.create (GCMDeviceAuthorizedViewSet plain_framework)
            sample_request empty_world).2 = Return d.
Proof.
  eexists. split; [vm_compute; reflexivity |].
  apply (gcm_create_then_retrieve plain_framework sample_request empty_world).
  - intros i j ri rj Hi. simpl in Hi. rewrite lookup_empty in Hi.
    discriminate Hi.
  - vm_compute. reflexivity.
  - vm_compute. reflexivity.
Defined.

(** X17. The query sets of [AuthorizedMixin] keep the users apart: each
    is a part of the table, the query sets of two different users have
    no record in common, and a record without an owner is in none. *)
Theorem authorized_querysets_disjoint (table q1 q2 : QuerySet)
    (request1 request2 : Request) :
  AuthorizedMixin.get_queryset table request1 = Return q1 →
  AuthorizedMixin.get_queryset table request2 = Return q2 →
  user request1 ≠ user request2 →
  q1 ⊆ table ∧
  q1 ##ₘ q2 ∧
  ∀ k row, table !! k = Some row → row !! "user" = None → q1 !! k = None.
Proof.
  unfold AuthorizedMixin.get_queryset.
  destruct (user request1) as [p |]; [| discriminate].
  destruct (user request2) as [q |]; [| discriminate].
  intros [= <-] [= <-] Hne. split; [| split].
  - apply map_filter_subseteq.
  - apply map_disjoint_spec. intros k x y Hx Hy.
    apply map_lookup_filter_Some in Hx as [Hx Hp].
    apply map_lookup_filter_Some in Hy as [Hy Hq].
    simpl in Hp, Hq. rewrite Hx in Hy. injection Hy as <-.
    rewrite Hp in Hq. injection Hq as <-. now apply Hne.
  - intros k row Hk Hnone. apply map_lookup_filter_None. right.
    intros x Hx. simpl. rewrite Hk in Hx. injection Hx as <-.
    rewrite Hnone. discriminate.
Qed.

Lemma authorized_querysets_disjoint_witness :
  ∃ q1 q2,
    AuthorizedMixin.get_queryset (objects sample_world) sample_request
    = Return q1 ∧
    AuthorizedMixin.get_queryset (objects sample_world)
      {| user := User 8; data := ∅ |} = Return q2 ∧
    q1 ##ₘ q2.
Proof.
  eexists _, _. split; [reflexivity |]. split; [reflexivity |].
  apply (authorized_querysets_disjoint (objects sample_world) _ _
           sample_request {| user := User 8; data := ∅ |});
    [reflexivity | reflexivity | discriminate].
Defined.
